(** * darshan_agg: aggregation of Darshan logs into parquet files

    A shallow embedding of [darshan_agg.py].  Python dictionaries that
    are only read by key are finite maps ([gmap]); the batch dictionary,
    whose iteration order decides the order of the rows and of the
    exports, is an insertion-ordered association list.  Exceptions are
    an error sum, and the writes to the file system are collected in an
    append-only log.  Console output ([print], the [debug] flag) has no
    effect on any returned value or written file and is left out. *)

From Stdlib Require Import ZArith Lia Ascii String.
From stdpp Require Import base option list strings pretty gmap.

Local Open Scope string_scope.
Local Open Scope list_scope.
Local Open Scope Z_scope.

(** ** Values *)

(** The values that occur in the job metadata of a report and in the
    cells of a table: integers (uid, jobid, timestamps, nprocs, the
    counters), strings (log_ver, exe), floats (run_time, the float
    counters) and the dictionary of the metadata blob.  The program only
    moves floats and dictionaries around, so each is identified with its
    [repr], the text Python shows for it. *)
Inductive pyval :=
  | VInt (z : Z)
  | VStr (s : string)
  | VFloat (repr : string)
  | VDict (repr : string).

#[global] Instance pyval_eq_dec : EqDecision pyval.
Proof. solve_decision. Defined.

(** A pandas DataFrame: the column labels and the rows, each row with
    its index label. *)
Record DataFrame := mkDataFrame {
  df_columns : list string;
  df_rows : list (pyval * list pyval)
}.

#[global] Instance DataFrame_eq_dec : EqDecision DataFrame.
Proof. solve_decision. Defined.

(** ** Exceptions and effects *)

Inductive exn :=
  | ValueError (msg : string)
  | KeyError (key : string)
  | TypeError (what : string)
  | AttributeError (what : string)
  | OSError (msg : string).

#[global] Instance exn_eq_dec : EqDecision exn.
Proof. solve_decision. Defined.

Inductive result (A : Type) :=
  | Ok (a : A)
  | Raise (e : exn).
Arguments Ok {A} a.
Arguments Raise {A} e.

#[global] Instance result_ret : MRet result := λ A a, Ok a.
#[global] Instance result_bind : MBind result := λ A B f m,
  match m with
  | Ok a => f a
  | Raise e => Raise e
  end.

(** What the program does to the file system: [Mkdir path] is a call
    [os.mkdir(path)] that made the directory, [ToParquet path df] is the
    call [df.to_parquet(path)].  The events of a run are these calls, in
    order; an error of the parquet writer itself is not modelled. *)
Inductive event :=
  | Mkdir (path : string)
  | ToParquet (path : string) (df : DataFrame).

#[global] Instance event_eq_dec : EqDecision event.
Proof. solve_decision. Defined.

(** An effectful computation: its outcome and the events it performed,
    oldest first.  Events performed before an exception stay performed. *)
Definition io (A : Type) : Type := result A * list event.

#[global] Instance io_ret : MRet io := λ A a, (Ok a, []).
#[global] Instance io_bind : MBind io := λ A B f m,
  match m.1 with
  | Ok a => let r := f a in (r.1, m.2 ++ r.2)
  | Raise e => (Raise e, m.2)
  end.

Definition lift {A} (r : result A) : io A := (r, []).
Definition emit (e : event) : io unit := (Ok tt, [e]).
Definition raise {A} (e : exn) : io A := (Raise e, []).

(** [for x in l: body x] *)
Fixpoint for_each {A} (l : list A) (body : A → io unit) : io unit :=
  match l with
  | [] => mret tt
  | x :: l' => body x ≫= λ _, for_each l' body
  end.

(** ** Strings and paths *)

(** [sep.join(parts)] *)
Fixpoint str_join (sep : string) (parts : list string) : string :=
  match parts with
  | [] => ""
  | [s] => s
  | s :: rest => s +:+ sep +:+ str_join sep rest
  end.

(** [str(i)] for an int. *)
Definition str_int (z : Z) : string := pretty z.

Fixpoint str_take (n : nat) (s : string) : string :=
  match n, s with
  | S n', String a s' => String a (str_take n' s')
  | _, _ => ""
  end.

Fixpoint str_drop (n : nat) (s : string) : string :=
  match n, s with
  | S n', String _ s' => str_drop n' s'
  | _, _ => s
  end.

Definition startswith (s pre : string) : bool :=
  bool_decide (str_take (String.length pre) s = pre).

Definition endswith (s suf : string) : bool :=
  bool_decide (str_drop (String.length s - String.length suf)%nat s = suf).

(** [s.rfind(c)]: the index of the last occurrence, [-1] when absent. *)
Fixpoint rfind (c : ascii) (s : string) : Z :=
  match s with
  | "" => -1
  | String a s' =>
      let r := rfind c s' in
      if 0 <=? r then 1 + r
      else if bool_decide (a = c) then 0 else -1
  end.

(** [p[i:i+1]] for [0 <= i] *)
Definition char_at (p : string) (i : Z) : string :=
  str_take 1 (str_drop (Z.to_nat i) p).

(** The loop of [genericpath._splitext] that skips the leading dots of
    the last component: it runs over the indices [filenameIndex ..
    dotIndex - 1], [n] of them, and answers whether one holds a
    character other than the dot (then the path is split). *)
Fixpoint splitext_loop (n : nat) (p : string) (filenameIndex : Z) : bool :=
  match n with
  | O => false
  | S n' =>
      if bool_decide (char_at p filenameIndex ≠ ".") then true
      else splitext_loop n' p (filenameIndex + 1)
  end.

(** [os.path.splitext(p)] (posixpath: sep is the slash, no altsep) *)
Definition splitext (p : string) : string * string :=
  let sepIndex := rfind "/"%char p in
  let dotIndex := rfind "."%char p in
  if bool_decide (sepIndex < dotIndex) then
    let filenameIndex := sepIndex + 1 in
    if splitext_loop (Z.to_nat (dotIndex - filenameIndex)) p filenameIndex
    then (str_take (Z.to_nat dotIndex) p, str_drop (Z.to_nat dotIndex) p)
    else (p, "")
  else (p, "").

(** [os.path.join(a, b)] (posixpath) *)
Definition path_join (a b : string) : string :=
  if startswith b "/" then b
  else if bool_decide (a = "") || endswith a "/" then a +:+ b
  else a +:+ "/" +:+ b.

(** ** Insertion-ordered dictionaries *)

Section odict.
Context {V : Type}.

(** [d[k]] *)
Fixpoint od_get (d : list (string * V)) (k : string) : option V :=
  match d with
  | [] => None
  | (k', v) :: d' => if bool_decide (k' = k) then Some v else od_get d' k
  end.

(** [d[k] = v]: a present key keeps its place and takes the new
    value, a new key goes to the end. *)
Fixpoint od_set (d : list (string * V)) (k : string) (v : V) : list (string * V) :=
  match d with
  | [] => [(k, v)]
  | (k', v') :: d' =>
      if bool_decide (k' = k) then (k, v) :: d' else (k', v') :: od_set d' k v
  end.

(** [list(d.keys())] *)
Definition od_keys (d : list (string * V)) : list string := d.*1.
End odict.

(** [for x in l: s = f s x], where a step may raise *)
Fixpoint for_fold {A S} (f : S → A → result S) (l : list A) (s : S) : result S :=
  match l with
  | [] => Ok s
  | x :: l' => f s x ≫= for_fold f l'
  end.

(** ** Records of the trace library

    What [report.records[...]] holds after the module was read: the
    fields of a record that the program looks at. *)

(** A LUSTRE record. *)
Record counters_record := mk_counters_record {
  cr_rank : Z;
  cr_id : Z;
  cr_counters : DataFrame
}.

(** A POSIX or STDIO record. *)
Record fcounters_record := mk_fcounters_record {
  fr_rank : Z;
  fr_id : Z;
  fr_counters : DataFrame;
  fr_fcounters : DataFrame
}.

(** An entry of [report.records['DXT_POSIX'].to_df()]. *)
Record dxt_record := mk_dxt_record {
  dxt_id : Z;
  dxt_rank : Z;
  dxt_hostname : string;
  dxt_write_count : Z;
  dxt_read_count : Z;
  dxt_write_segments : DataFrame;
  dxt_read_segments : DataFrame
}.

(** ** Classes *)

Module DXT_POSIX_metadata.
Record t := mk {
  id : Z;
  rank : Z;
  hostname : string;
  write_count : Z;
  read_count : Z
}.

Definition init (i_id i_rank : Z) (i_hostname : string) (i_write i_read : Z) : t :=
  {| id := i_id; rank := i_rank; hostname := i_hostname;
     write_count := i_write; read_count := i_read |}.

Definition to_filename (self : t) : string :=
  str_join "_" [str_int (id self); str_int (rank self); hostname self].
End DXT_POSIX_metadata.

(** [d[k]] on a dictionary that is only read by key *)
Definition getitem `{Countable K} {V} (d : gmap K V) (k : K) (shown : string) : result V :=
  match d !! k with
  | Some v => Ok v
  | None => Raise (KeyError shown)
  end.

Module DXT_POSIX_coll.
Record t := mk {
  metadata : list DXT_POSIX_metadata.t;
  read_segments : gmap Z DataFrame;
  write_segments : gmap Z DataFrame
}.

(** The body of the loop of [__init__].  The metadata entry is appended
    before the check, but a raise leaves no object behind. *)
Definition init_step (self : t) (record : dxt_record) : result t :=
  let record_metadata :=
    DXT_POSIX_metadata.init (dxt_id record) (dxt_rank record) (dxt_hostname record)
                            (dxt_read_count record) (dxt_write_count record) in
  let metadata' := metadata self ++ [record_metadata] in
  if bool_decide (is_Some (read_segments self !! DXT_POSIX_metadata.id record_metadata))
  then Raise (ValueError "ASSUMPTION FALSE: record IDs are not unique!")
  else Ok {| metadata := metadata';
             read_segments :=
               <[DXT_POSIX_metadata.id record_metadata := dxt_read_segments record]>
                 (read_segments self);
             write_segments :=
               <[DXT_POSIX_metadata.id record_metadata := dxt_write_segments record]>
                 (write_segments self) |}.

Definition init (posix_records : list dxt_record) : result t :=
  for_fold init_step posix_records
           {| metadata := []; read_segments := ∅; write_segments := ∅ |}.

Definition export_parquet (self : t) (directory prefix : string) : io unit :=
  let file_prefix := "DXTPOSIX" in
  let file_suffix := ".parquet" in
  for_each (metadata self) (λ record,
    let file_id_prefix := DXT_POSIX_metadata.to_filename record in
    let read_filename :=
      file_prefix +:+ "_" +:+ prefix +:+ "_" +:+ file_id_prefix
                  +:+ "_read_segments" +:+ file_suffix in
    rs ← lift (getitem (read_segments self) (DXT_POSIX_metadata.id record)
                       (str_int (DXT_POSIX_metadata.id record)));
    emit (ToParquet (path_join directory read_filename) rs);;
    let write_filename :=
      file_prefix +:+ "_" +:+ prefix +:+ "_" +:+ file_id_prefix
                  +:+ "_write_segments" +:+ file_suffix in
    ws ← lift (getitem (write_segments self) (DXT_POSIX_metadata.id record)
                       (str_int (DXT_POSIX_metadata.id record)));
    emit (ToParquet (path_join directory write_filename) ws)).
End DXT_POSIX_coll.

(** How a [(rank, id)] key is shown in a [KeyError]. *)
Definition show_key (k : Z * Z) : string :=
  "(" +:+ str_int k.1 +:+ ", " +:+ str_int k.2 +:+ ")".

Module counters_coll.
Record t := mk {
  metadata : list (Z * Z);
  counters : gmap (Z * Z) DataFrame
}.

Definition init_step (self : t) (record : counters_record) : t :=
  let record_metadata := (cr_rank record, cr_id record) in
  {| metadata := metadata self ++ [record_metadata];
     counters := <[record_metadata := cr_counters record]> (counters self) |}.

Definition init (records : list counters_record) : t :=
  foldl init_step {| metadata := []; counters := ∅ |} records.

Definition _file_fillers (module_name : string) : string * string :=
  let file_prefix := module_name +:+ "_" in
  let file_suffix := ".parquet" in
  (file_prefix, file_suffix).

Definition export_parquet (self : t) (module_name directory prefix : string) : io unit :=
  let '(file_prefix, file_suffix) := _file_fillers module_name in
  for_each (metadata self) (λ record,
    let file_id_prefix := str_join "_" [str_int record.1; str_int record.2] in
    let counters_filename :=
      file_prefix +:+ prefix +:+ "_" +:+ file_id_prefix +:+ "_counters" +:+ file_suffix in
    df ← lift (getitem (counters self) record (show_key record));
    emit (ToParquet (path_join directory counters_filename) df)).
End counters_coll.

Module LUSTRE_coll.
Definition init (records : list counters_record) : counters_coll.t :=
  counters_coll.init records.

Definition export_parquet (self : counters_coll.t) (directory prefix : string) : io unit :=
  counters_coll.export_parquet self "LUSTRE" directory prefix.
End LUSTRE_coll.

Module fcounters_coll.
Record t := mk {
  metadata : list (Z * Z);
  counters : gmap (Z * Z) DataFrame;
  fcounters : gmap (Z * Z) DataFrame
}.

(** The object seen through its base class. *)
Definition super (self : t) : counters_coll.t :=
  {| counters_coll.metadata := metadata self; counters_coll.counters := counters self |}.

Definition init_step (self : t) (record : fcounters_record) : t :=
  let record_metadata := (fr_rank record, fr_id record) in
  {| metadata := metadata self ++ [record_metadata];
     counters := <[record_metadata := fr_counters record]> (counters self);
     fcounters := <[record_metadata := fr_fcounters record]> (fcounters self) |}.

Definition init (records : list fcounters_record) : t :=
  foldl init_step {| metadata := []; counters := ∅; fcounters := ∅ |} records.

Definition export_parquet (self : t) (module_name directory prefix : string) : io unit :=
  counters_coll.export_parquet (super self) module_name directory prefix;;
  let '(file_prefix, file_suffix) := counters_coll._file_fillers module_name in
  for_each (metadata self) (λ record,
    let file_id_prefix := str_join "_" [str_int record.1; str_int record.2] in
    let fcounters_filename :=
      file_prefix +:+ prefix +:+ "_" +:+ file_id_prefix +:+ "_fcounters" +:+ file_suffix in
    df ← lift (getitem (fcounters self) record (show_key record));
    emit (ToParquet (path_join directory fcounters_filename) df)).
End fcounters_coll.

Module STDIO_coll.
Definition init (records : list fcounters_record) : fcounters_coll.t :=
  fcounters_coll.init records.

Definition export_parquet (self : fcounters_coll.t) (directory prefix : string) : io unit :=
  fcounters_coll.export_parquet self "STDIO" directory prefix.
End STDIO_coll.

Module POSIX_coll.
Definition init (records : list fcounters_record) : fcounters_coll.t :=
  fcounters_coll.init records.

Definition export_parquet (self : fcounters_coll.t) (directory prefix : string) : io unit :=
  fcounters_coll.export_parquet self "POSIX" directory prefix.
End POSIX_coll.

(** ** The world outside the program *)

(** The metadata of a report: the job fields under ["job"] and the
    executable string beside them. *)
Record metadata_t := mk_metadata {
  md_job : gmap string pyval;
  md_exe : pyval
}.

(** An opened report of the trace library: its metadata, the names of
    the modules found in the log, and what [report.records] holds for a
    module once the module was read.  Opening a log may raise (see
    [darshan_DarshanReport] below); the reads of the modules of an
    opened report are taken to return. *)
Record Report := mk_Report {
  rp_metadata : metadata_t;
  rp_modules : list string;
  rp_records_POSIX : list fcounters_record;
  rp_records_LUSTRE : list counters_record;
  rp_records_STDIO : list fcounters_record;
  rp_records_DXT_POSIX : list dxt_record
}.

Inductive file_kind := RegularFile | Directory | OtherKind.

#[global] Instance file_kind_eq_dec : EqDecision file_kind.
Proof. solve_decision. Defined.

(** The file system as the program finds it, and the trace library.
    [os_mkdir] is what [os.mkdir(path)] does: it creates the directory,
    or raises the [OSError] of the operating system (the
    [FileNotFoundError] of a missing parent directory, a
    [PermissionError], ...). *)
Record world := mk_world {
  os_path_kind : string → option file_kind;
  os_listdir : string → list string;
  os_mkdir : string → result unit;
  darshan_DarshanReport : string → result Report
}.

Definition os_path_exists (w : world) (p : string) : bool :=
  bool_decide (is_Some (os_path_kind w p)).
Definition os_path_isfile (w : world) (p : string) : bool :=
  bool_decide (os_path_kind w p = Some RegularFile).
Definition os_path_isdir (w : world) (p : string) : bool :=
  bool_decide (os_path_kind w p = Some Directory).

(** [os.mkdir(path)]: the directory is made, or the error comes out. *)
Definition mkdir (w : world) (path : string) : io unit :=
  match os_mkdir w path with
  | Ok _ => emit (Mkdir path)
  | Raise e => raise e
  end.

(** ** Main functions *)

(** What the dictionary returned by [read_log] holds under its keys. *)
Inductive pyobj :=
  | OMetadata (m : metadata_t)
  | OStrList (l : list string)
  | OPOSIX_coll (c : fcounters_coll.t)
  | OLUSTRE_coll (c : counters_coll.t)
  | OSTDIO_coll (c : fcounters_coll.t)
  | ODXT_POSIX_coll (c : DXT_POSIX_coll.t)
  | OReport (r : Report).

(** [str(v)] *)
Definition py_str (v : pyval) : string :=
  match v with
  | VInt z => str_int z
  | VStr s => s
  | VFloat r => r
  | VDict r => r
  end.

(** The MPI-IO and DXT_MPIIO blocks of [read_log] read the records and
    print them; they store nothing and do not appear below. *)
Definition read_log (w : world) (filename : string) : result (gmap string pyobj) :=
  if negb (os_path_exists w filename)
  then Raise (ValueError ("Provided path " +:+ filename +:+ " does not exist."))
  else if negb (os_path_isfile w filename)
  then Raise (ValueError ("Provided path " +:+ filename +:+ " is not a valid file."))
  else
    let output : gmap string pyobj := ∅ in
    report ← darshan_DarshanReport w filename;
    let output := <["metadata" := OMetadata (rp_metadata report)]> output in
    let modules := rp_modules report in
    let output := <["modules" := OStrList modules]> output in
    let loaded_modules : list string := [] in
    let '(output, loaded_modules) :=
      if bool_decide ("POSIX" ∈ modules)
      then (<["POSIX_coll" := OPOSIX_coll (POSIX_coll.init (rp_records_POSIX report))]> output,
            loaded_modules ++ ["POSIX_coll"])
      else (output, loaded_modules) in
    let '(output, loaded_modules) :=
      if bool_decide ("LUSTRE" ∈ modules)
      then (<["LUSTRE_coll" := OLUSTRE_coll (LUSTRE_coll.init (rp_records_LUSTRE report))]> output,
            loaded_modules ++ ["LUSTRE_coll"])
      else (output, loaded_modules) in
    let '(output, loaded_modules) :=
      if bool_decide ("STDIO" ∈ modules)
      then (<["STDIO_coll" := OSTDIO_coll (STDIO_coll.init (rp_records_STDIO report))]> output,
            loaded_modules ++ ["STDIO_coll"])
      else (output, loaded_modules) in
    '(output, loaded_modules) ←
      (if bool_decide ("DXT_POSIX" ∈ modules)
       then
         let pos := rp_records_DXT_POSIX report in
         c ← DXT_POSIX_coll.init pos;
         mret (<["DXT_POSIX_coll_object" := ODXT_POSIX_coll c]> output,
               loaded_modules ++ ["DXT_POSIX_coll_object"])
       else mret (output, loaded_modules));
    let output := <["report" := OReport report]> output in
    let output := <["loaded_modules" := OStrList loaded_modules]> output in
    mret output.

Definition collect_logfiles (w : world) (directory : string) : result (list string) :=
  if negb (os_path_exists w directory)
  then Raise (ValueError ("Provided path " +:+ directory +:+ " does not exist."))
  else if negb (os_path_isdir w directory)
  then Raise (ValueError ("Provided path " +:+ directory +:+ " is not a directroy."))
  else
    let files := filter (λ f, os_path_isfile w (path_join directory f) = true)
                        (os_listdir w directory) in
    let logfiles := filter (λ f, (splitext f).2 = ".darshan") files in
    mret logfiles.

Definition mdf_header : list string :=
  ["run_time"; "start_time_nsec"; "start_time_sec"; "end_time_nsec"; "end_time_sec";
   "jobid"; "uid"; "log_ver"; "metadata"; "nprocs"; "exe"].

(** [report['metadata']] *)
Definition report_metadata (report : gmap string pyobj) : result metadata_t :=
  o ← getitem report "metadata" "metadata";
  match o with
  | OMetadata m => mret m
  | _ => Raise (TypeError "metadata")
  end.

(** [df.loc[label] = values]: a row of the wrong width is refused, a
    present label has its row replaced, a new label adds a row. *)
Definition df_loc_set (df : DataFrame) (label : pyval) (values : list pyval) : result DataFrame :=
  if bool_decide (length values ≠ length (df_columns df))
  then Raise (ValueError "cannot set a row with mismatched columns")
  else if bool_decide (label ∈ (df_rows df).*1)
  then Ok {| df_columns := df_columns df;
             df_rows := (λ r, if bool_decide (r.1 = label) then (label, values) else r)
                          <$> df_rows df |}
  else Ok {| df_columns := df_columns df; df_rows := df_rows df ++ [(label, values)] |}.

(** [for val in mdf_header[:-1]: values.append(report['metadata']['job'][val])] *)
Definition job_values (report : gmap string pyobj) : result (list pyval) :=
  for_fold (λ values val,
              m ← report_metadata report;
              v ← getitem (md_job m) val val;
              mret (values ++ [v]))
           (take (length mdf_header - 1) mdf_header) [].

Definition move_metadata_into_dataframe
    (report_data : list (string * gmap string pyobj)) : result DataFrame :=
  let metadata_df := {| df_columns := mdf_header; df_rows := [] |} in
  for_fold (λ metadata_df report_name,
              report ← from_option Ok (Raise (KeyError report_name))
                                   (od_get report_data report_name);
              values ← job_values report;
              m ← report_metadata report;
              let values := values ++ [md_exe m] in
              if bool_decide (VStr report_name ∈ (df_rows metadata_df).*1)
              then Raise (ValueError ("The name " +:+ report_name +:+
                " is not unique -- attempted to insert a row into the metadata df into a location that already exists!"))
              else df_loc_set metadata_df (VStr report_name) values)
           (od_keys report_data) metadata_df.

Definition generate_name_for_report (report : gmap string pyobj) : result string :=
  m ← report_metadata report;
  let job_metadata := md_job m in
  uid ← getitem job_metadata "uid" "uid";
  jobid ← getitem job_metadata "jobid" "jobid";
  mret (str_join "_" [py_str uid; py_str jobid]).

(** [obj.export_parquet(directory, prefix)], by the class of [obj] *)
Definition export_parquet (obj : pyobj) (directory prefix : string) : io unit :=
  match obj with
  | OPOSIX_coll c => POSIX_coll.export_parquet c directory prefix
  | OLUSTRE_coll c => LUSTRE_coll.export_parquet c directory prefix
  | OSTDIO_coll c => STDIO_coll.export_parquet c directory prefix
  | ODXT_POSIX_coll c => DXT_POSIX_coll.export_parquet c directory prefix
  | _ => raise (AttributeError "export_parquet")
  end.

(** [report["loaded_modules"]], a list of strings *)
Definition report_loaded_modules (report : gmap string pyobj) : result (list string) :=
  o ← getitem report "loaded_modules" "loaded_modules";
  match o with
  | OStrList l => mret l
  | _ => Raise (TypeError "loaded_modules")
  end.

Definition write_to_parquet (w : world) (report_data : list (string * gmap string pyobj))
    (metadata_df : DataFrame) (output_dir : string) : io unit :=
  (if os_path_exists w output_dir && negb (os_path_isdir w output_dir)
   then raise (ValueError ("Provided directory " +:+ output_dir +:+
                           " exists and is not a directory. Aborting."))
   else if os_path_exists w output_dir then mret tt
   else if negb (os_path_exists w output_dir) then mkdir w output_dir
   else mret tt);;
  let metadata_df_filename := path_join output_dir "metadata.parquet" in
  emit (ToParquet metadata_df_filename metadata_df);;
  for_each (od_keys report_data) (λ report_name,
    report ← lift (from_option Ok (Raise (KeyError report_name))
                               (od_get report_data report_name));
    loaded_modules ← lift (report_loaded_modules report);
    for_each loaded_modules (λ module_name,
      obj ← lift (getitem report module_name module_name);
      export_parquet obj output_dir report_name)).

Definition aggregate_darshan (w : world) (directory output_loc : string) : io unit :=
  files ← lift (collect_logfiles w directory);
  let collected_report_data : list (string * gmap string pyobj) := [] in
  collected_report_data ← lift (for_fold (λ collected_report_data f,
      tmp_report_data ← read_log w (path_join directory f);
      tmp_name ← generate_name_for_report tmp_report_data;
      mret (od_set collected_report_data tmp_name tmp_report_data))
    files collected_report_data);
  metadata_df ← lift (move_metadata_into_dataframe collected_report_data);
  write_to_parquet w collected_report_data metadata_df output_loc.

(** ** Definitions used to state the properties *)

(** The metadata object that [DXT_POSIX_coll.__init__] builds for a
    record: the call as it is written in the loop. *)
Definition metadata_of (record : dxt_record) : DXT_POSIX_metadata.t :=
  DXT_POSIX_metadata.init (dxt_id record) (dxt_rank record) (dxt_hostname record)
                          (dxt_read_count record) (dxt_write_count record).

(** ** Example data *)

Definition df_small (n : Z) : DataFrame :=
  {| df_columns := ["offset"; "length"];
     df_rows := [(VInt 0, [VInt 0; VInt n])] |}.

Definition dxt_records_distinct : list dxt_record :=
  [ mk_dxt_record 11 0 "n01" 3 5 (df_small 1) (df_small 2);
    mk_dxt_record 12 1 "n02" 4 6 (df_small 3) (df_small 4) ].

Definition dxt_records_colliding : list dxt_record :=
  [ mk_dxt_record 11 0 "n01" 3 5 (df_small 1) (df_small 2);
    mk_dxt_record 12 1 "n02" 4 6 (df_small 3) (df_small 4);
    mk_dxt_record 11 1 "n02" 7 8 (df_small 5) (df_small 6) ].

Definition lustre_records_colliding : list counters_record :=
  [ mk_counters_record 0 7 (df_small 1);
    mk_counters_record 1 7 (df_small 2);
    mk_counters_record 0 7 (df_small 3) ].

Definition posix_records_colliding : list fcounters_record :=
  [ mk_fcounters_record 0 7 (df_small 1) (df_small 10);
    mk_fcounters_record 0 7 (df_small 2) (df_small 20);
    mk_fcounters_record 2 9 (df_small 3) (df_small 30) ].

(** An [os.mkdir] that can make the one directory [made] and nothing
    else. *)
Definition mkdir_only (made : string) (path : string) : result unit :=
  if bool_decide (path = made) then Ok tt
  else Raise (OSError ("[Errno 2] No such file or directory: '" +:+ path +:+ "'")).

(** A directory [logs] holding the regular files [a.darshan],
    [b.darshan_partial] and [c.txt]; the trace library is not asked. *)
Definition world_mixed : world :=
  {| os_path_kind := λ p,
       if bool_decide (p = "logs") then Some Directory
       else if bool_decide (p ∈ ["logs/a.darshan"; "logs/b.darshan_partial"; "logs/c.txt"])
            then Some RegularFile else None;
     os_listdir := λ p,
       if bool_decide (p = "logs") then ["c.txt"; "b.darshan_partial"; "a.darshan"] else [];
     os_mkdir := mkdir_only "out";
     darshan_DarshanReport := λ p, Raise (ValueError p) |}.

(** [row] is the row of the metadata table for the job [report] named
    [name]: labelled by the name, as wide as the header, holding under
    every column but [exe] what the job metadata holds under that name,
    and under [exe] the executable string. *)
Definition row_of_job (name : string) (report : gmap string pyobj)
    (row : pyval * list pyval) : Prop :=
  row.1 = VStr name
  ∧ ∃ m, report !! "metadata" = Some (OMetadata m)
         ∧ length row.2 = length mdf_header
         ∧ (∀ (i : nat) col, mdf_header !! i = Some col → col ≠ "exe" →
              is_Some (row.2 !! i) ∧ row.2 !! i = md_job m !! col)
         ∧ (∀ (i : nat), mdf_header !! i = Some "exe" → row.2 !! i = Some (md_exe m)).

(** A job record has its metadata, with every job field of the header. *)
Definition has_job_fields (report : gmap string pyobj) : Prop :=
  ∃ m, report !! "metadata" = Some (OMetadata m)
       ∧ ∀ col, col ∈ mdf_header → col ≠ "exe" → is_Some (md_job m !! col).

(** Job metadata as the trace library gives it. *)
Definition job_fields (uid jobid nprocs : Z) : gmap string pyval :=
  list_to_map
    [ ("uid", VInt uid); ("start_time_sec", VInt 1700000000);
      ("start_time_nsec", VInt 125); ("end_time_sec", VInt 1700000060);
      ("end_time_nsec", VInt 250); ("nprocs", VInt nprocs); ("jobid", VInt jobid);
      ("run_time", VFloat "60.000000125"); ("log_ver", VStr "3.41");
      ("metadata", VDict "{'lib_ver': '3.4.4', 'h': 'romio_no_indirect=true'}") ].

(** A report with POSIX, HEATMAP and DXT_POSIX data, of user 1, job 42. *)
Definition report_a : Report :=
  {| rp_metadata := {| md_job := job_fields 1 42 4; md_exe := VStr "./ior -a POSIX" |};
     rp_modules := ["POSIX"; "HEATMAP"; "DXT_POSIX"];
     rp_records_POSIX := [mk_fcounters_record 0 7 (df_small 1) (df_small 2)];
     rp_records_LUSTRE := [];
     rp_records_STDIO := [];
     rp_records_DXT_POSIX := [mk_dxt_record 7 0 "n01" 3 5 (df_small 3) (df_small 4)] |}.

(** A report with LUSTRE and MPI-IO data, of the same user and job. *)
Definition report_b : Report :=
  {| rp_metadata := {| md_job := job_fields 1 42 8; md_exe := VStr "./ior -a MPIIO" |};
     rp_modules := ["LUSTRE"; "MPI-IO"];
     rp_records_POSIX := [];
     rp_records_LUSTRE := [mk_counters_record 0 9 (df_small 5)];
     rp_records_STDIO := [];
     rp_records_DXT_POSIX := [] |}.

(** A directory [logs] with the two logs above, and no [out] yet. *)
Definition world_same_name : world :=
  {| os_path_kind := λ p,
       if bool_decide (p = "logs") then Some Directory
       else if bool_decide (p ∈ ["logs/a.darshan"; "logs/b.darshan"])
            then Some RegularFile else None;
     os_listdir := λ p,
       if bool_decide (p = "logs") then ["a.darshan"; "b.darshan"] else [];
     os_mkdir := mkdir_only "out";
     darshan_DarshanReport := λ p,
       if bool_decide (p = "logs/a.darshan") then Ok report_a
       else if bool_decide (p = "logs/b.darshan") then Ok report_b
       else Raise (ValueError p) |}.

(** The dictionary [read_log] returns for a report without modules. *)
Definition job_record (uid jobid nprocs : Z) : gmap string pyobj :=
  let report :=
    {| rp_metadata := {| md_job := job_fields uid jobid nprocs; md_exe := VStr "./a.out" |};
       rp_modules := []; rp_records_POSIX := []; rp_records_LUSTRE := [];
       rp_records_STDIO := []; rp_records_DXT_POSIX := [] |} in
  <["loaded_modules" := OStrList []]>
    (<["report" := OReport report]>
       (<["modules" := OStrList []]>
          (<["metadata" := OMetadata (rp_metadata report)]> ∅))).

Definition batch_two_jobs : list (string * gmap string pyobj) :=
  [("1_42", job_record 1 42 4); ("2_43", job_record 2 43 8)].



(** The objects with an [export_parquet(directory, prefix)] method. *)
Definition is_collection (obj : pyobj) : bool :=
  match obj with
  | OPOSIX_coll _ | OLUSTRE_coll _ | OSTDIO_coll _ | ODXT_POSIX_coll _ => true
  | _ => false
  end.

(** A world with a regular file [out.txt], a directory [archive] and
    nothing else: [fresh] can be made, and nothing can be made under
    [missing], which is not there. *)
Definition world_outputs : world :=
  {| os_path_kind := λ p,
       if bool_decide (p = "out.txt") then Some RegularFile
       else if bool_decide (p = "archive") then Some Directory
       else None;
     os_listdir := λ p, [];
     os_mkdir := mkdir_only "fresh";
     darshan_DarshanReport := λ p, Raise (ValueError p) |}.


(** The one row that the metadata table of [world_same_name] is left
    with: the row of the second log. *)
Definition row_b : pyval * list pyval :=
  (VStr "1_42",
   [ VFloat "60.000000125"; VInt 125; VInt 1700000000; VInt 250; VInt 1700000060;
     VInt 42; VInt 1; VStr "3.41";
     VDict "{'lib_ver': '3.4.4', 'h': 'romio_no_indirect=true'}";
     VInt 8; VStr "./ior -a MPIIO" ]).

(** The error of the duplicate-name check of
    [move_metadata_into_dataframe]. *)
Definition duplicate_name_error (report_name : string) : exn :=
  ValueError ("The name " +:+ report_name +:+
    " is not unique -- attempted to insert a row into the metadata df into a location that already exists!").

Definition is_ValueError (e : exn) : bool :=
  match e with ValueError _ => true | _ => false end.

(** Every identity listed in the [metadata] of a collection object is a
    key of each of its table dictionaries: what the lookups of its
    [export_parquet] need. *)
Definition collection_keys_present (obj : pyobj) : Prop :=
  match obj with
  | OPOSIX_coll c | OSTDIO_coll c =>
      ∀ k, k ∈ fcounters_coll.metadata c →
           is_Some (fcounters_coll.counters c !! k)
           ∧ is_Some (fcounters_coll.fcounters c !! k)
  | OLUSTRE_coll c =>
      ∀ k, k ∈ counters_coll.metadata c → is_Some (counters_coll.counters c !! k)
  | ODXT_POSIX_coll c =>
      ∀ m, m ∈ DXT_POSIX_coll.metadata c →
           is_Some (DXT_POSIX_coll.read_segments c !! DXT_POSIX_metadata.id m)
           ∧ is_Some (DXT_POSIX_coll.write_segments c !! DXT_POSIX_metadata.id m)
  | _ => False
  end.

(** The errors of a subscript or a method call that finds nothing:
    [KeyError], [TypeError], [AttributeError]. *)
Definition is_lookup_error (e : exn) : bool :=
  match e with
  | KeyError _ | TypeError _ | AttributeError _ => true
  | _ => false
  end.

(** ** Definitions used to state the further properties *)

(** The character [c] does not occur in [s]. *)
Fixpoint no_char (c : ascii) (s : string) : Prop :=
  match s with
  | "" => True
  | String a s' => a ≠ c ∧ no_char c s'
  end.

(** The path an event writes or creates. *)
Definition event_path (e : event) : string :=
  match e with
  | Mkdir path => path
  | ToParquet path _ => path
  end.

(** A report whose detailed-segment records share an [id], beside POSIX
    records that are fine. *)
Definition report_dxt_collision : Report :=
  {| rp_metadata := {| md_job := job_fields 1 42 4; md_exe := VStr "./ior -a POSIX" |};
     rp_modules := ["POSIX"; "DXT_POSIX"];
     rp_records_POSIX := [mk_fcounters_record 0 7 (df_small 1) (df_small 2)];
     rp_records_LUSTRE := [];
     rp_records_STDIO := [];
     rp_records_DXT_POSIX := dxt_records_colliding |}.

Definition world_dxt_collision : world :=
  {| os_path_kind := λ p,
       if bool_decide (p = "logs") then Some Directory
       else if bool_decide (p = "logs/a.darshan") then Some RegularFile else None;
     os_listdir := λ p, if bool_decide (p = "logs") then ["a.darshan"] else [];
     os_mkdir := mkdir_only "out";
     darshan_DarshanReport := λ p, Ok report_dxt_collision |}.

(** A job record whose job metadata lacks [nprocs]. *)
Definition job_record_no_nprocs : gmap string pyobj :=
  <["metadata" := OMetadata {| md_job := delete "nprocs" (job_fields 3 44 2);
                               md_exe := VStr "./a.out" |}]> (job_record 3 44 2).


(** The loop of [aggregate_darshan] that reads the logs into the batch
    dictionary, started from the dictionary [collected_report_data]. *)
Definition collect_reports (w : world) (directory : string) (files : list string)
    (collected_report_data : list (string * gmap string pyobj))
    : result (list (string * gmap string pyobj)) :=
  for_fold (λ collected_report_data f,
              tmp_report_data ← read_log w (path_join directory f);
              tmp_name ← generate_name_for_report tmp_report_data;
              mret (od_set collected_report_data tmp_name tmp_report_data))
           files collected_report_data.


(** A directory [logs] with two logs of different jobs and a file that
    is not a log; [out] does not exist. *)
Definition report_c : Report :=
  {| rp_metadata := {| md_job := job_fields 2 43 8; md_exe := VStr "./ior -a MPIIO" |};
     rp_modules := ["LUSTRE"; "MPI-IO"];
     rp_records_POSIX := [];
     rp_records_LUSTRE := [mk_counters_record 0 9 (df_small 5)];
     rp_records_STDIO := [];
     rp_records_DXT_POSIX := [] |}.

Definition world_two_jobs : world :=
  {| os_path_kind := λ p,
       if bool_decide (p = "logs") then Some Directory
       else if bool_decide (p ∈ ["logs/a.darshan"; "logs/c.darshan"; "logs/notes.txt"])
            then Some RegularFile else None;
     os_listdir := λ p,
       if bool_decide (p = "logs") then ["a.darshan"; "notes.txt"; "c.darshan"] else [];
     os_mkdir := mkdir_only "out";
     darshan_DarshanReport := λ p,
       if bool_decide (p = "logs/a.darshan") then Ok report_a
       else if bool_decide (p = "logs/c.darshan") then Ok report_c
       else Raise (ValueError p) |}.

(** The same directory, where the trace library refuses the second log. *)
Definition world_broken_log : world :=
  {| os_path_kind := os_path_kind world_two_jobs;
     os_listdir := os_listdir world_two_jobs;
     os_mkdir := os_mkdir world_two_jobs;
     darshan_DarshanReport := λ p,
       if bool_decide (p = "logs/a.darshan") then Ok report_a
       else Raise (ValueError "not a darshan log") |}.

(** * Properties *)

(** ** Loops *)

Lemma for_fold_app {A S} (f : S → A → result S) (l1 l2 : list A) (s : S) :
  for_fold f (l1 ++ l2) s = for_fold f l1 s ≫= for_fold f l2.
Proof.
  revert s. induction l1 as [|x l1 IH]; intros s; simpl; [done|].
  destruct (f s x) as [s'|e]; simpl; [apply IH | done].
Qed.

Lemma for_each_ok {A} (l : list A) (body : A → io unit) :
  (∀ x, x ∈ l → (body x).1 = Ok tt) →
  for_each l body = (Ok tt, flat_map (λ x, (body x).2) l).
Proof.
  induction l as [|x l IH]; intros Hall; simpl; [done|].
  unfold mbind, io_bind.
  rewrite (Hall x) by (left; done). simpl.
  rewrite IH by (intros y Hy; apply Hall; right; done). done.
Qed.

Lemma bind_lift_ok {A B} (a : A) (f : A → io B) : lift (Ok a) ≫= f = f a.
Proof. unfold lift, mbind, io_bind. simpl. by destruct (f a). Qed.

Lemma bind_lift_raise {A B} (e : exn) (f : A → io B) :
  lift (Raise e) ≫= f = (Raise e, []).
Proof. reflexivity. Qed.

Lemma bind_emit (e : event) {B} (f : unit → io B) :
  emit e ≫= f = ((f tt).1, e :: (f tt).2).
Proof. reflexivity. Qed.

Lemma bind_ok_events {A B} (a : A) (evs : list event) (f : A → io B) :
  ((Ok a, evs) : io A) ≫= f = ((f a).1, evs ++ (f a).2).
Proof. reflexivity. Qed.

(** ** The detailed-segment collection *)

Section DXT_POSIX_coll_facts.
Import DXT_POSIX_coll.

Lemma dxt_init_step_fresh (self : t) (record : dxt_record) :
  read_segments self !! dxt_id record = None →
  init_step self record =
    Ok {| metadata := metadata self ++ [metadata_of record];
          read_segments := <[dxt_id record := dxt_read_segments record]> (read_segments self);
          write_segments := <[dxt_id record := dxt_write_segments record]> (write_segments self) |}.
Proof.
  intros Hnone. unfold init_step. simpl.
  rewrite bool_decide_eq_false_2; [done|].
  rewrite Hnone. by intros [? ?].
Qed.

Lemma dxt_init_step_taken (self : t) (record : dxt_record) :
  is_Some (read_segments self !! dxt_id record) →
  init_step self record = Raise (ValueError "ASSUMPTION FALSE: record IDs are not unique!").
Proof.
  intros Hsome. unfold init_step. simpl.
  by rewrite bool_decide_eq_true_2.
Qed.

Lemma dxt_fold_distinct (records : list dxt_record) (self : t) :
  NoDup (dxt_id <$> records) →
  (∀ r, r ∈ records → read_segments self !! dxt_id r = None) →
  ∃ c, for_fold init_step records self = Ok c
       ∧ metadata c = metadata self ++ (metadata_of <$> records)
       ∧ (∀ r, r ∈ records →
            read_segments c !! dxt_id r = Some (dxt_read_segments r)
            ∧ write_segments c !! dxt_id r = Some (dxt_write_segments r))
       ∧ (∀ k, k ∉ dxt_id <$> records →
            read_segments c !! k = read_segments self !! k
            ∧ write_segments c !! k = write_segments self !! k).
Proof.
  revert self. induction records as [|r records IH]; intros self Hnd Hfresh.
  - exists self. simpl. rewrite app_nil_r.
    split; [done|]. split; [done|]. split; [|done].
    intros r Hr. by apply elem_of_nil in Hr.
  - rewrite fmap_cons in Hnd. apply NoDup_cons in Hnd as [Hr Hnd].
    simpl. rewrite dxt_init_step_fresh by (apply Hfresh; left).
    unfold mbind, result_bind.
    match goal with
    | |- context [for_fold init_step records ?s] =>
        destruct (IH s Hnd) as (c & Hc & Hmd & Hin & Hout)
    end.
    { intros r' Hr'. simpl. rewrite lookup_insert_ne; [apply Hfresh; by right|].
      intros Heq. apply Hr. rewrite Heq. by apply list_elem_of_fmap_2. }
    exists c. split; [exact Hc|]. simpl in *. split; [|split].
    + by rewrite Hmd, <- app_assoc.
    + intros r' [->|Hr']%elem_of_cons; [|by apply Hin].
      destruct (Hout (dxt_id r) Hr) as [-> ->].
      by rewrite !lookup_insert_eq.
    + intros k Hk.
      apply not_elem_of_cons in Hk as [Hne Hk].
      destruct (Hout k Hk) as [-> ->].
      by rewrite !lookup_insert_ne.
Qed.

Lemma dxt_fold_collision (records : list dxt_record) (self : t) :
  ¬ NoDup (dxt_id <$> records)
  ∨ (∃ r, r ∈ records ∧ is_Some (read_segments self !! dxt_id r)) →
  for_fold init_step records self
  = Raise (ValueError "ASSUMPTION FALSE: record IDs are not unique!").
Proof.
  revert self. induction records as [|r records IH]; intros self Hbad.
  - destruct Hbad as [Hnd | (r & Hr & _)].
    + destruct Hnd. constructor.
    + by apply elem_of_nil in Hr.
  - simpl. destruct (read_segments self !! dxt_id r) as [v|] eqn:Hlook.
    + rewrite dxt_init_step_taken by (rewrite Hlook; eauto). done.
    + rewrite dxt_init_step_fresh by done. simpl. apply IH. simpl.
      destruct Hbad as [Hnd | (r' & Hr' & Hsome)].
      * destruct (decide (dxt_id r ∈ dxt_id <$> records)) as [Hin|Hnin].
        -- right. apply list_elem_of_fmap in Hin as (r' & Heq & Hr').
           exists r'. split; [done|]. rewrite <- Heq, lookup_insert_eq. eauto.
        -- left. intros Hnd'. apply Hnd. rewrite fmap_cons.
           by apply NoDup_cons.
      * apply elem_of_cons in Hr' as [->|Hr'].
        -- rewrite Hlook in Hsome. by destruct Hsome.
        -- right. exists r'. split; [done|].
           destruct (decide (dxt_id r = dxt_id r')) as [->|Hne].
           ++ rewrite lookup_insert_eq. eauto.
           ++ by rewrite lookup_insert_ne.
Qed.
End DXT_POSIX_coll_facts.

(** C3. Records with pairwise distinct [id]s: [DXT_POSIX_coll] is built,
    and the read and write segment tables stored under each record's
    [id] are that record's tables.  Two records (at different places of
    the list) with the same [id]: the construction raises the
    uniqueness [ValueError]. *)
Theorem DXT_POSIX_coll_init_unique_ids (posix_records : list dxt_record) :
  (NoDup (dxt_id <$> posix_records) →
   ∃ c, DXT_POSIX_coll.init posix_records = Ok c
        ∧ ∀ r, r ∈ posix_records →
            DXT_POSIX_coll.read_segments c !! dxt_id r = Some (dxt_read_segments r)
            ∧ DXT_POSIX_coll.write_segments c !! dxt_id r = Some (dxt_write_segments r))
  ∧ (∀ (i j : nat) (ri rj : dxt_record),
       i ≠ j → posix_records !! i = Some ri → posix_records !! j = Some rj →
       dxt_id ri = dxt_id rj →
       DXT_POSIX_coll.init posix_records
       = Raise (ValueError "ASSUMPTION FALSE: record IDs are not unique!")).
Proof.
  split.
  - intros Hnd. unfold DXT_POSIX_coll.init.
    destruct (dxt_fold_distinct posix_records
                {| DXT_POSIX_coll.metadata := [];
                   DXT_POSIX_coll.read_segments := ∅;
                   DXT_POSIX_coll.write_segments := ∅ |} Hnd)
      as (c & Hc & _ & Hin & _).
    { intros r _. apply lookup_empty. }
    exists c. split; [exact Hc | exact Hin].
  - intros i j ri rj Hij Hi Hj Hid. apply dxt_fold_collision. left.
    intros Hnd. apply Hij.
    apply (proj1 (NoDup_alt _) Hnd i j (dxt_id ri)).
    + by rewrite list_lookup_fmap, Hi.
    + by rewrite list_lookup_fmap, Hj, Hid.
Qed.

Lemma DXT_POSIX_coll_init_unique_ids_witness :
  (∃ c, DXT_POSIX_coll.init dxt_records_distinct = Ok c
        ∧ ∀ r, r ∈ dxt_records_distinct →
            DXT_POSIX_coll.read_segments c !! dxt_id r = Some (dxt_read_segments r)
            ∧ DXT_POSIX_coll.write_segments c !! dxt_id r = Some (dxt_write_segments r))
  ∧ DXT_POSIX_coll.init dxt_records_colliding
    = Raise (ValueError "ASSUMPTION FALSE: record IDs are not unique!").
Proof.
  split.
  - apply (proj1 (DXT_POSIX_coll_init_unique_ids dxt_records_distinct)).
    apply (bool_decide_unpack _). vm_compute. exact I.
  - apply (proj2 (DXT_POSIX_coll_init_unique_ids dxt_records_colliding)
             0%nat 2%nat
             (mk_dxt_record 11 0 "n01" 3 5 (df_small 1) (df_small 2))
             (mk_dxt_record 11 1 "n02" 7 8 (df_small 5) (df_small 6)));
      [lia | reflexivity | reflexivity | reflexivity].
Defined.

(** C9. The metadata object built for a record holds the record's
    [read_count] in its [write_count] field and the record's
    [write_count] in its [read_count] field, since [__init__] takes the
    write count before the read count and is called with the read count
    first.  [id], [rank] and [hostname] are the record's, and so is the
    file-name part made of them, which is the one the object would have
    with the two counts in the other order. *)
Theorem DXT_POSIX_metadata_counts_swapped (posix_records : list dxt_record) :
  NoDup (dxt_id <$> posix_records) →
  ∃ c, DXT_POSIX_coll.init posix_records = Ok c
       ∧ Forall2 (λ record m,
           DXT_POSIX_metadata.write_count m = dxt_read_count record
           ∧ DXT_POSIX_metadata.read_count m = dxt_write_count record
           ∧ DXT_POSIX_metadata.id m = dxt_id record
           ∧ DXT_POSIX_metadata.rank m = dxt_rank record
           ∧ DXT_POSIX_metadata.hostname m = dxt_hostname record
           ∧ DXT_POSIX_metadata.to_filename m
             = str_join "_" [str_int (dxt_id record); str_int (dxt_rank record);
                             dxt_hostname record]
           ∧ DXT_POSIX_metadata.to_filename m
             = DXT_POSIX_metadata.to_filename
                 (DXT_POSIX_metadata.init (dxt_id record) (dxt_rank record)
                    (dxt_hostname record) (dxt_write_count record) (dxt_read_count record)))
         posix_records (DXT_POSIX_coll.metadata c).
Proof.
  intros Hnd. unfold DXT_POSIX_coll.init.
  destruct (dxt_fold_distinct posix_records
              {| DXT_POSIX_coll.metadata := [];
                 DXT_POSIX_coll.read_segments := ∅;
                 DXT_POSIX_coll.write_segments := ∅ |} Hnd)
    as (c & Hc & Hmd & _ & _).
  { intros r _. apply lookup_empty. }
  exists c. split; [exact Hc|].
  rewrite Hmd. simpl. apply Forall2_fmap_r, Forall_Forall2_diag, Forall_forall.
  intros record _. unfold metadata_of. simpl. repeat split; reflexivity.
Qed.

Lemma DXT_POSIX_metadata_counts_swapped_witness :
  ∃ c, DXT_POSIX_coll.init dxt_records_distinct = Ok c
       ∧ (DXT_POSIX_metadata.write_count <$> DXT_POSIX_coll.metadata c) = [5; 6]
       ∧ (DXT_POSIX_metadata.read_count <$> DXT_POSIX_coll.metadata c) = [3; 4].
Proof.
  destruct (DXT_POSIX_metadata_counts_swapped dxt_records_distinct) as (c & Hc & _).
  - apply (bool_decide_unpack _). vm_compute. exact I.
  - exists c. split; [exact Hc|].
    vm_compute in Hc. injection Hc as <-. split; reflexivity.
Defined.

(** ** The counter collections *)

Lemma counters_fold_other (records : list counters_record) (self : counters_coll.t)
    (k : Z * Z) :
  (∀ r, r ∈ records → (cr_rank r, cr_id r) ≠ k) →
  counters_coll.counters (foldl counters_coll.init_step self records) !! k
  = counters_coll.counters self !! k.
Proof.
  revert self. induction records as [|r records IH]; intros self Hne; simpl; [done|].
  rewrite IH by (intros r' Hr'; apply Hne; by right).
  simpl. apply lookup_insert_ne, Hne. by left.
Qed.

Lemma fcounters_fold_other (records : list fcounters_record) (self : fcounters_coll.t)
    (k : Z * Z) :
  (∀ r, r ∈ records → (fr_rank r, fr_id r) ≠ k) →
  fcounters_coll.counters (foldl fcounters_coll.init_step self records) !! k
  = fcounters_coll.counters self !! k
  ∧ fcounters_coll.fcounters (foldl fcounters_coll.init_step self records) !! k
    = fcounters_coll.fcounters self !! k.
Proof.
  revert self. induction records as [|r records IH]; intros self Hne; simpl; [done|].
  destruct (IH (fcounters_coll.init_step self r)) as [-> ->].
  { intros r' Hr'. apply Hne. by right. }
  simpl. split; apply lookup_insert_ne, Hne; by left.
Qed.

Lemma counters_fold_metadata (records : list counters_record) (self : counters_coll.t) :
  counters_coll.metadata (foldl counters_coll.init_step self records)
  = counters_coll.metadata self ++ ((λ r, (cr_rank r, cr_id r)) <$> records).
Proof.
  revert self. induction records as [|r records IH]; intros self; simpl.
  - by rewrite app_nil_r.
  - rewrite IH. simpl. by rewrite <- app_assoc.
Qed.

Lemma fcounters_fold_metadata (records : list fcounters_record) (self : fcounters_coll.t) :
  fcounters_coll.metadata (foldl fcounters_coll.init_step self records)
  = fcounters_coll.metadata self ++ ((λ r, (fr_rank r, fr_id r)) <$> records).
Proof.
  revert self. induction records as [|r records IH]; intros self; simpl.
  - by rewrite app_nil_r.
  - rewrite IH. simpl. by rewrite <- app_assoc.
Qed.

(** C4. A counters-only or counters+float-counters collection built
    from a list in which a record [b] comes after a record [a] of the
    same (rank, id), no record of that identity coming after [b]: the
    builder is a total function (nothing in it raises), and the table,
    or the two tables, stored for the identity are those of [b]. *)
Theorem counters_coll_later_record_overwrites :
  (∀ (l1 l2 l3 : list counters_record) (a b : counters_record),
     (cr_rank a, cr_id a) = (cr_rank b, cr_id b) →
     (∀ r, r ∈ l3 → (cr_rank r, cr_id r) ≠ (cr_rank b, cr_id b)) →
     counters_coll.counters (counters_coll.init (l1 ++ a :: l2 ++ b :: l3))
       !! (cr_rank a, cr_id a) = Some (cr_counters b))
  ∧ (∀ (l1 l2 l3 : list fcounters_record) (a b : fcounters_record),
       (fr_rank a, fr_id a) = (fr_rank b, fr_id b) →
       (∀ r, r ∈ l3 → (fr_rank r, fr_id r) ≠ (fr_rank b, fr_id b)) →
       fcounters_coll.counters (fcounters_coll.init (l1 ++ a :: l2 ++ b :: l3))
         !! (fr_rank a, fr_id a) = Some (fr_counters b)
       ∧ fcounters_coll.fcounters (fcounters_coll.init (l1 ++ a :: l2 ++ b :: l3))
           !! (fr_rank a, fr_id a) = Some (fr_fcounters b)).
Proof.
  split.
  - intros l1 l2 l3 a b Hab Hlast. unfold counters_coll.init.
    rewrite Hab.
    replace (l1 ++ a :: l2 ++ b :: l3) with ((l1 ++ a :: l2) ++ b :: l3)
      by (by rewrite <- app_assoc).
    rewrite foldl_app. simpl.
    rewrite counters_fold_other by exact Hlast.
    simpl. apply lookup_insert_eq.
  - intros l1 l2 l3 a b Hab Hlast. unfold fcounters_coll.init.
    rewrite Hab.
    replace (l1 ++ a :: l2 ++ b :: l3) with ((l1 ++ a :: l2) ++ b :: l3)
      by (by rewrite <- app_assoc).
    rewrite foldl_app. simpl.
    match goal with
    | |- context [foldl _ ?s l3] =>
        destruct (fcounters_fold_other l3 s _ Hlast) as [-> ->]
    end.
    simpl. split; apply lookup_insert_eq.
Qed.

Lemma counters_coll_later_record_overwrites_witness :
  counters_coll.counters (counters_coll.init lustre_records_colliding) !! (0, 7)
  = Some (df_small 3)
  ∧ fcounters_coll.counters (fcounters_coll.init posix_records_colliding) !! (0, 7)
    = Some (df_small 2)
  ∧ fcounters_coll.fcounters (fcounters_coll.init posix_records_colliding) !! (0, 7)
    = Some (df_small 20).
Proof.
  split.
  - apply (proj1 counters_coll_later_record_overwrites
             [] [mk_counters_record 1 7 (df_small 2)] []
             (mk_counters_record 0 7 (df_small 1))
             (mk_counters_record 0 7 (df_small 3))).
    + reflexivity.
    + intros r Hr. by apply elem_of_nil in Hr.
  - apply (proj2 counters_coll_later_record_overwrites
             [] [] [mk_fcounters_record 2 9 (df_small 3) (df_small 30)]
             (mk_fcounters_record 0 7 (df_small 1) (df_small 10))
             (mk_fcounters_record 0 7 (df_small 2) (df_small 20))).
    + reflexivity.
    + intros r ->%list_elem_of_singleton. simpl. congruence.
Defined.

(** C5. A LUSTRE collection holding the one record (rank 0, id 7),
    exported with the prefix ["u1_42"], writes one file, named
    [LUSTRE_u1_42_0_7_counters.parquet] in the directory.  A
    counters+float-counters collection holding that record, exported
    under the module name ["LUSTRE"] with the same prefix, writes two
    files: that one, then [LUSTRE_u1_42_0_7_fcounters.parquet]. *)
Theorem export_parquet_file_names (directory : string) (c f : DataFrame) :
  LUSTRE_coll.export_parquet (LUSTRE_coll.init [mk_counters_record 0 7 c]) directory "u1_42"
  = (Ok tt, [ToParquet (path_join directory "LUSTRE_u1_42_0_7_counters.parquet") c])
  ∧ fcounters_coll.export_parquet (fcounters_coll.init [mk_fcounters_record 0 7 c f])
      "LUSTRE" directory "u1_42"
    = (Ok tt, [ToParquet (path_join directory "LUSTRE_u1_42_0_7_counters.parquet") c;
               ToParquet (path_join directory "LUSTRE_u1_42_0_7_fcounters.parquet") f]).
Proof.
  split; reflexivity.
Qed.

(** ** Paths *)

Lemma str_take_drop (n : nat) (s : string) : str_take n s +:+ str_drop n s = s.
Proof.
  revert s. induction n as [|n IH]; intros [|a s]; try done.
  change (String a (str_take n s +:+ str_drop n s) = String a s).
  by rewrite IH.
Qed.

Lemma str_drop_length_app (s1 s2 : string) :
  str_drop (String.length s1) (s1 +:+ s2) = s2.
Proof. induction s1 as [|a s1 IH]; simpl; [by destruct s2 | exact IH]. Qed.

Lemma str_length_app (s1 s2 : string) :
  String.length (s1 +:+ s2) = (String.length s1 + String.length s2)%nat.
Proof.
  induction s1 as [|a s1 IH]; [done|].
  change (S (String.length (s1 +:+ s2)) = S (String.length s1 + String.length s2)).
  by rewrite IH.
Qed.

Lemma str_drop_drop (n m : nat) (s : string) :
  str_drop n (str_drop m s) = str_drop (m + n) s.
Proof.
  revert s. induction m as [|m IH]; intros s; simpl; [done|].
  destruct s as [|a s]; [by destruct n | apply IH].
Qed.

Lemma str_append_nil_r (s : string) : s +:+ "" = s.
Proof.
  induction s as [|a s IH]; [done|].
  change (String a (s +:+ "") = String a s). by rewrite IH.
Qed.

(** The two halves that [splitext] returns make up the path. *)
Lemma splitext_app (p : string) : (splitext p).1 +:+ (splitext p).2 = p.
Proof.
  unfold splitext.
  destruct (bool_decide _); [|apply str_append_nil_r].
  destruct (splitext_loop _ _ _); simpl.
  - apply str_take_drop.
  - apply str_append_nil_r.
Qed.

(** A name with the extension [.darshan] ends in [.darshan]. *)
Lemma splitext_darshan_suffix (f : string) :
  (splitext f).2 = ".darshan" →
  str_drop (String.length f - 8) f = ".darshan".
Proof.
  intros Hext. pose proof (splitext_app f) as Happ. rewrite Hext in Happ.
  rewrite <- Happ at 1 2. rewrite str_length_app. simpl String.length.
  replace (String.length (splitext f).1 + 8 - 8)%nat
    with (String.length (splitext f).1) by lia.
  apply str_drop_length_app.
Qed.

(** A name that ends in [.darshan_partial] does not have the extension
    [.darshan]. *)
Lemma splitext_darshan_partial (f : string) :
  endswith f ".darshan_partial" = true → (splitext f).2 ≠ ".darshan".
Proof.
  unfold endswith. intros Hpartial%bool_decide_eq_true Hext%splitext_darshan_suffix.
  simpl String.length in Hpartial.
  assert (String.length f < 16 ∨ 16 ≤ String.length f)%nat as [Hshort|Hlong] by lia.
  - replace (String.length f - 16)%nat with 0%nat in Hpartial by lia.
    simpl in Hpartial. rewrite Hpartial in Hext. discriminate.
  - assert (str_drop 8 (str_drop (String.length f - 16) f) = "_partial") as Hdrop
      by (by rewrite Hpartial).
    rewrite str_drop_drop in Hdrop.
    replace (String.length f - 16 + 8)%nat with (String.length f - 8)%nat in Hdrop by lia.
    rewrite Hext in Hdrop. discriminate.
Qed.

Lemma rfind_range (c : ascii) (s : string) :
  rfind c s = -1 ∨ 0 ≤ rfind c s < Z.of_nat (String.length s).
Proof.
  induction s as [|a s IH]; [by left|].
  cbn [rfind String.length]. destruct (Z.leb_spec 0 (rfind c s)) as [Hge|Hlt].
  - right. lia.
  - case_bool_decide; [right; lia | by left].
Qed.

Lemma rfind_app (c : ascii) (s1 s2 : string) :
  rfind c (s1 +:+ s2)
  = if 0 <=? rfind c s2 then Z.of_nat (String.length s1) + rfind c s2 else rfind c s1.
Proof.
  induction s1 as [|a s1 IH].
  - change ("" +:+ s2) with s2. cbn [rfind String.length].
    destruct (Z.leb_spec 0 (rfind c s2)) as [Hge|Hlt]; [lia|].
    destruct (rfind_range c s2); lia.
  - change (String a s1 +:+ s2) with (String a (s1 +:+ s2)).
    cbn [rfind String.length]. rewrite IH.
    destruct (Z.leb_spec 0 (rfind c s2)) as [Hge|Hlt].
    + rewrite (proj2 (Z.leb_le 0 _)) by lia. lia.
    + reflexivity.
Qed.

Lemma char_at_app_l (s1 s2 : string) (j : Z) :
  0 ≤ j < Z.of_nat (String.length s1) → char_at (s1 +:+ s2) j = char_at s1 j.
Proof.
  unfold char_at. intros Hj.
  assert (Z.to_nat j < String.length s1)%nat as Hlt by lia. clear Hj.
  revert Hlt. generalize (Z.to_nat j) as n. clear j.
  induction s1 as [|a s1 IH]; intros n Hn; [simpl in Hn; lia|].
  change (String a s1 +:+ s2) with (String a (s1 +:+ s2)).
  destruct n as [|n]; [reflexivity|].
  cbn [str_drop]. apply IH. simpl in Hn. lia.
Qed.

Lemma splitext_loop_true (n : nat) (p : string) (i : Z) :
  0 ≤ i →
  splitext_loop n p i = true ↔ ∃ j, i ≤ j < i + Z.of_nat n ∧ char_at p j ≠ ".".
Proof.
  revert i. induction n as [|n IH]; intros i Hi; cbn [splitext_loop].
  - split; [discriminate|]. intros (j & Hj & _). lia.
  - case_bool_decide as Hc.
    + split; [|done]. intros _. exists i. split; [lia | done].
    + rewrite IH by lia. split.
      * intros (j & Hj & Hne). exists j. split; [lia | done].
      * intros (j & Hj & Hne). exists j. split; [|done].
        destruct (decide (j = i)) as [->|]; [|lia].
        destruct Hc. done.
Qed.

(** The names with the extension [.darshan]: a stem followed by
    [.darshan], where the last component of the stem holds a character
    other than the dot. *)
Lemma splitext_darshan_iff (f : string) :
  (splitext f).2 = ".darshan" ↔
  ∃ stem, f = stem +:+ ".darshan"
          ∧ ∃ j, rfind "/" stem < j < Z.of_nat (String.length stem)
                 ∧ char_at stem j ≠ ".".
Proof.
  assert (∀ stem, rfind "/" (stem +:+ ".darshan") = rfind "/" stem
                  ∧ rfind "." (stem +:+ ".darshan") = Z.of_nat (String.length stem))
    as Hidx.
  { intros stem. rewrite !rfind_app.
    replace (rfind "/" ".darshan") with (-1) by reflexivity.
    replace (rfind "." ".darshan") with 0 by reflexivity.
    cbn [Z.leb Z.compare]. split; [reflexivity | lia]. }
  assert (∀ stem,
            splitext_loop
              (Z.to_nat (Z.of_nat (String.length stem) - (rfind "/" stem + 1)))
              (stem +:+ ".darshan") (rfind "/" stem + 1) = true ↔
            ∃ j, rfind "/" stem < j < Z.of_nat (String.length stem)
                 ∧ char_at stem j ≠ ".") as Hloop.
  { intros stem. pose proof (rfind_range "/" stem) as Hsep.
    rewrite splitext_loop_true by lia. split.
    - intros (j & Hj & Hne). exists j. split; [lia|].
      by rewrite char_at_app_l in Hne by lia.
    - intros (j & Hj & Hne). exists j. split; [lia|].
      by rewrite char_at_app_l by lia. }
  split.
  - intros Hext. exists (splitext f).1.
    pose proof (splitext_app f) as Happ. rewrite Hext in Happ.
    split; [done|]. set (stem := (splitext f).1) in *. clearbody stem. subst f.
    destruct (Hidx stem) as [Hsep Hdot]. unfold splitext in Hext.
    rewrite Hsep, Hdot in Hext. apply Hloop.
    destruct (splitext_loop _ _ _); [done|].
    by case_bool_decide.
  - intros (stem & -> & Hstem). destruct (Hidx stem) as [Hsep Hdot].
    unfold splitext. rewrite Hsep, Hdot.
    pose proof (rfind_range "/" stem) as Hrange.
    rewrite bool_decide_eq_true_2 by lia.
    rewrite (proj2 (Hloop stem) Hstem). cbn [snd].
    rewrite Nat2Z.id. apply str_drop_length_app.
Qed.

(** ** The directory scan *)

Lemma filter_all {A} (P : A → Prop) `{!∀ x, Decision (P x)} (l : list A) :
  (∀ x, x ∈ l → P x) → filter P l = l.
Proof.
  induction l as [|x l IH]; intros Hall; [done|].
  rewrite filter_cons_True by (apply Hall; by left).
  f_equal. apply IH. intros y Hy. apply Hall. by right.
Qed.

(** C6. Scanning an existing directory returns, in the order of the
    listing, exactly the entries that are regular files and whose
    extension (the second half of [os.path.splitext]) is [.darshan],
    that is, the names made of a stem and [.darshan] where the last
    component of the stem is not made of dots only:
    no entry that ends in [.darshan_partial] is among them, and a
    listing made of the regular files [a.darshan], [b.darshan_partial]
    and [c.txt], in any order, gives exactly [a.darshan]. *)
Theorem collect_logfiles_exact (w : world) (directory : string) :
  os_path_kind w directory = Some Directory →
  ∃ logfiles,
    collect_logfiles w directory = Ok logfiles
    ∧ (∀ f, f ∈ logfiles ↔
             f ∈ os_listdir w directory
             ∧ os_path_kind w (path_join directory f) = Some RegularFile
             ∧ (splitext f).2 = ".darshan")
    ∧ (∀ f, f ∈ logfiles ↔
             f ∈ os_listdir w directory
             ∧ os_path_kind w (path_join directory f) = Some RegularFile
             ∧ ∃ stem, f = stem +:+ ".darshan"
                       ∧ ∃ j, rfind "/" stem < j < Z.of_nat (String.length stem)
                              ∧ char_at stem j ≠ ".")
    ∧ logfiles `sublist_of` os_listdir w directory
    ∧ (∀ f, endswith f ".darshan_partial" = true → f ∉ logfiles)
    ∧ (os_listdir w directory ≡ₚ ["a.darshan"; "b.darshan_partial"; "c.txt"] →
       (∀ f, f ∈ os_listdir w directory →
             os_path_kind w (path_join directory f) = Some RegularFile) →
       logfiles = ["a.darshan"]).
Proof.
  intros Hdir. unfold collect_logfiles, os_path_exists, os_path_isdir.
  rewrite Hdir.
  rewrite (bool_decide_eq_true_2 (is_Some (Some Directory))) by eauto.
  rewrite (bool_decide_eq_true_2 (Some Directory = Some Directory)) by done.
  simpl. eexists. split; [reflexivity|].
  assert (∀ f, f ∈ filter (λ f, (splitext f).2 = ".darshan")
                     (filter (λ f, os_path_isfile w (path_join directory f) = true)
                             (os_listdir w directory)) ↔
               f ∈ os_listdir w directory
               ∧ os_path_kind w (path_join directory f) = Some RegularFile
               ∧ (splitext f).2 = ".darshan") as Hmem.
  { intros f. rewrite !list_elem_of_filter. unfold os_path_isfile.
    rewrite bool_decide_eq_true. tauto. }
  split; [exact Hmem|]. split; [|split; [|split]].
  - intros f. rewrite Hmem, splitext_darshan_iff. reflexivity.
  - etrans; apply sublist_filter.
  - intros f Hpartial [_ [_ Hext]]%Hmem. by apply (splitext_darshan_partial f).
  - intros Hperm Hreg.
    apply Permutation_singleton_r.
    rewrite (filter_all (λ f, os_path_isfile w (path_join directory f) = true)).
    + rewrite Hperm. reflexivity.
    + intros f Hf. unfold os_path_isfile. apply bool_decide_eq_true. by apply Hreg.
Qed.

Lemma collect_logfiles_exact_witness :
  os_path_kind world_mixed "logs" = Some Directory
  ∧ collect_logfiles world_mixed "logs" = Ok ["a.darshan"].
Proof.
  split; [reflexivity|].
  destruct (collect_logfiles_exact world_mixed "logs") as (l & Hrun & _ & _ & _ & _ & Hex).
  - reflexivity.
  - rewrite Hrun. f_equal. apply Hex.
    + apply (bool_decide_unpack _). vm_compute. exact I.
    + intros f Hf. vm_compute in Hf.
      repeat (apply elem_of_cons in Hf as [->|Hf]; [reflexivity|]).
      by apply elem_of_nil in Hf.
Defined.

(** ** Dictionaries *)

Lemma od_get_NoDup {V} (d : list (string * V)) (k : string) (v : V) :
  NoDup (od_keys d) → (k, v) ∈ d → od_get d k = Some v.
Proof.
  unfold od_keys. induction d as [|[k' v'] d IH]; intros Hnd Hin.
  - by apply elem_of_nil in Hin.
  - rewrite fmap_cons in Hnd. apply NoDup_cons in Hnd as [Hk' Hnd]. simpl.
    apply elem_of_cons in Hin as [[= -> ->]|Hin].
    + by rewrite bool_decide_eq_true_2.
    + rewrite bool_decide_eq_false_2; [by apply IH|].
      intros ->. apply Hk'. apply list_elem_of_fmap. by exists (k, v).
Qed.

Lemma od_set_keys {V} (d : list (string * V)) (k : string) (v : V) :
  od_keys (od_set d k v) = if bool_decide (k ∈ od_keys d) then od_keys d else od_keys d ++ [k].
Proof.
  unfold od_keys. induction d as [|[k' v'] d IH]; [done|].
  cbn [od_set]. rewrite fmap_cons. cbn [fst].
  destruct (decide (k' = k)) as [->|Hne].
  - rewrite bool_decide_eq_true_2 by done.
    rewrite bool_decide_eq_true_2 by (by left). by rewrite fmap_cons.
  - rewrite bool_decide_eq_false_2 by done. rewrite fmap_cons, IH. cbn [fst].
    destruct (decide (k ∈ d.*1)) as [Hin|Hnin].
    + rewrite !bool_decide_eq_true_2; [done | by right | done].
    + rewrite !bool_decide_eq_false_2; [done | | done].
      intros [->|?]%elem_of_cons; done.
Qed.

(** Assignments keep the keys of a dictionary distinct. *)
Lemma od_set_NoDup {V} (d : list (string * V)) (k : string) (v : V) :
  NoDup (od_keys d) → NoDup (od_keys (od_set d k v)).
Proof.
  intros Hnd. rewrite od_set_keys. case_bool_decide as Hin; [done|].
  apply NoDup_app. split; [done|]. split; [|apply NoDup_singleton].
  intros x Hx ->%list_elem_of_singleton. done.
Qed.

(** ** The metadata table *)

Lemma job_values_fold (report : gmap string pyobj) (m : metadata_t)
    (cols : list string) (acc : list pyval) :
  report !! "metadata" = Some (OMetadata m) →
  (∀ col, col ∈ cols → is_Some (md_job m !! col)) →
  ∃ vals,
    for_fold (λ values val,
                m ← report_metadata report;
                v ← getitem (md_job m) val val;
                mret (values ++ [v])) cols acc = Ok (acc ++ vals)
    ∧ Forall2 (λ col v, md_job m !! col = Some v) cols vals.
Proof.
  intros Hmd.
  set (body := λ (values : list pyval) (val : string),
                 m ← report_metadata report;
                 v ← getitem (md_job m) val val;
                 mret (values ++ [v])).
  revert acc. induction cols as [|col cols IH]; intros acc Hall.
  - exists []. simpl. rewrite app_nil_r. split; [done | constructor].
  - destruct (Hall col) as [v Hv]; [by left|].
    destruct (IH (acc ++ [v])) as (vals & Hrun & Hvals).
    { intros c Hc. apply Hall. by right. }
    exists (v :: vals). split; [|by constructor].
    assert (body acc col = Ok (acc ++ [v])) as Hstep.
    { unfold body, report_metadata, getitem. rewrite Hmd. simpl. by rewrite Hv. }
    cbn [for_fold]. rewrite Hstep.
    change (for_fold body cols (acc ++ [v]) = Ok (acc ++ v :: vals)).
    rewrite Hrun. by rewrite <- app_assoc.
Qed.

Lemma row_of_job_intro (name : string) (report : gmap string pyobj) (m : metadata_t)
    (vals : list pyval) :
  report !! "metadata" = Some (OMetadata m) →
  Forall2 (λ col v, md_job m !! col = Some v) (take (length mdf_header - 1) mdf_header) vals →
  row_of_job name report (VStr name, vals ++ [md_exe m]).
Proof.
  intros Hmd Hvals. split; [done|]. exists m. split; [exact Hmd|].
  simpl in Hvals.
  repeat match goal with
         | H : Forall2 _ (_ :: _) _ |- _ =>
             apply Forall2_cons_inv_l in H as (? & ? & ? & H & ->)
         | H : Forall2 _ [] _ |- _ => apply Forall2_nil_inv_l in H as ->
         end.
  simpl. split; [done|]. split.
  - intros i col Hi Hne.
    do 11 (destruct i as [|i]; [injection Hi as <-; simpl; split; [eauto | congruence] |]).
    done.
  - intros i Hi.
    do 10 (destruct i as [|i]; [discriminate Hi|]).
    destruct i as [|i]; [done|]. done.
Qed.

Lemma move_metadata_fold (report_data l : list (string * gmap string pyobj))
    (df0 : DataFrame) :
  NoDup (od_keys report_data) →
  (∀ x, x ∈ l → x ∈ report_data) →
  NoDup l.*1 →
  (∀ k, k ∈ l.*1 → VStr k ∉ (df_rows df0).*1) →
  df_columns df0 = mdf_header →
  (∀ name report, (name, report) ∈ l → has_job_fields report) →
  ∃ rows,
    for_fold (λ metadata_df report_name,
                report ← from_option Ok (Raise (KeyError report_name))
                                     (od_get report_data report_name);
                values ← job_values report;
                m ← report_metadata report;
                let values := values ++ [md_exe m] in
                if bool_decide (VStr report_name ∈ (df_rows metadata_df).*1)
                then Raise (ValueError ("The name " +:+ report_name +:+
                  " is not unique -- attempted to insert a row into the metadata df into a location that already exists!"))
                else df_loc_set metadata_df (VStr report_name) values)
             l.*1 df0
    = Ok {| df_columns := mdf_header; df_rows := df_rows df0 ++ rows |}
    ∧ Forall2 (λ job row, row_of_job job.1 job.2 row) l rows.
Proof.
  intros Hnd. match goal with |- context [for_fold ?f] => set (body := f) end.
  revert df0. induction l as [|[name report] l IH];
    intros df0 Hsub Hndl Hfresh Hcols Hgood.
  - exists []. rewrite app_nil_r. split; [|constructor].
    simpl. destruct df0 as [cols rows]. simpl in Hcols. by rewrite Hcols.
  - rewrite fmap_cons in Hndl. apply NoDup_cons in Hndl as [Hname Hndl].
    destruct (Hgood name report) as (m & Hmd & Hfields); [by left|].
    destruct (job_values_fold report m (take (length mdf_header - 1) mdf_header) [] Hmd)
      as (vals & Hvals & Hall).
    { intros col Hcol. apply Hfields.
      - apply list_elem_of_In in Hcol. apply list_elem_of_In. simpl in *. tauto.
      - intros ->. apply list_elem_of_In in Hcol. simpl in Hcol.
        intuition discriminate. }
    assert (body df0 name
            = Ok {| df_columns := mdf_header;
                    df_rows := df_rows df0 ++ [(VStr name, vals ++ [md_exe m])] |}) as Hstep.
    { unfold body.
      rewrite (od_get_NoDup report_data name report Hnd) by (apply Hsub; by left).
      unfold job_values. simpl from_option. cbn [mbind result_bind].
      rewrite Hvals. unfold report_metadata, getitem. rewrite Hmd.
      cbn [mbind result_bind mret result_ret app].
      rewrite bool_decide_eq_false_2 by (apply Hfresh; rewrite fmap_cons; by left).
      unfold df_loc_set.
      rewrite bool_decide_eq_false_2.
      2:{ intros Hlen. apply Hlen. rewrite Hcols, length_app.
          apply Forall2_length in Hall. rewrite <- Hall. reflexivity. }
      rewrite bool_decide_eq_false_2 by (apply Hfresh; rewrite fmap_cons; by left).
      by rewrite Hcols. }
    edestruct (IH {| df_columns := mdf_header;
                     df_rows := df_rows df0 ++ [(VStr name, vals ++ [md_exe m])] |})
      as (rows & Hrun & Hrows).
    + intros x Hx. apply Hsub. by right.
    + exact Hndl.
    + intros k Hk. simpl. rewrite fmap_app. intros [Hin|Hin]%elem_of_app.
      * apply (Hfresh k); [rewrite fmap_cons; by right | done].
      * simpl in Hin. apply list_elem_of_singleton in Hin. injection Hin as ->. done.
    + done.
    + intros n r Hin. apply (Hgood n r). by right.
    + exists ((VStr name, vals ++ [md_exe m]) :: rows). split.
      * rewrite fmap_cons. cbn [for_fold fst]. rewrite Hstep.
        cbn [mbind result_bind]. rewrite Hrun. simpl. by rewrite <- app_assoc.
      * constructor; [|exact Hrows]. by apply row_of_job_intro.
Qed.

(** C7. From a batch of job records with distinct names, each with its
    metadata, [move_metadata_into_dataframe] returns a table whose
    columns are the eleven of the header, with one row per job, in the
    order of the batch: the row of a job is labelled by its name, holds
    under each column but [exe] the value of that name in the ["job"]
    dictionary of the job's metadata, and under [exe] the value of the
    ["exe"] field beside it. *)
Theorem move_metadata_into_dataframe_rows
    (report_data : list (string * gmap string pyobj)) :
  NoDup (od_keys report_data) →
  (∀ name report, (name, report) ∈ report_data → has_job_fields report) →
  ∃ metadata_df,
    move_metadata_into_dataframe report_data = Ok metadata_df
    ∧ df_columns metadata_df
      = ["run_time"; "start_time_nsec"; "start_time_sec"; "end_time_nsec";
         "end_time_sec"; "jobid"; "uid"; "log_ver"; "metadata"; "nprocs"; "exe"]
    ∧ Forall2 (λ job row, row_of_job job.1 job.2 row) report_data (df_rows metadata_df).
Proof.
  intros Hnd Hgood. unfold move_metadata_into_dataframe.
  destruct (move_metadata_fold report_data report_data
              {| df_columns := mdf_header; df_rows := [] |} Hnd)
    as (rows & Hrun & Hrows); try done.
  - intros k _ Hin. by apply elem_of_nil in Hin.
  - eexists. split; [exact Hrun|]. split; [reflexivity | exact Hrows].
Qed.

Lemma job_values_fold_error (report : gmap string pyobj) (cols : list string)
    (acc : list pyval) (e : exn) :
  for_fold (λ values val,
              m ← report_metadata report;
              v ← getitem (md_job m) val val;
              mret (values ++ [v])) cols acc = Raise e →
  is_ValueError e = false.
Proof.
  set (body := λ (values : list pyval) (val : string),
                 m ← report_metadata report;
                 v ← getitem (md_job m) val val;
                 mret (values ++ [v])).
  revert acc. induction cols as [|col cols IH]; intros acc; [discriminate|].
  cbn [for_fold]. destruct (body acc col) as [acc'|e'] eqn:Hstep; cbn [mbind result_bind].
  - apply IH.
  - intros [= <-]. unfold body, report_metadata, getitem in Hstep.
    destruct (report !! "metadata") as [[m| | | | | |]|];
      cbn [mbind result_bind mret result_ret] in Hstep;
      try (by injection Hstep as <-).
    destruct (md_job m !! col) as [v|]; cbn [mbind result_bind] in Hstep;
      [discriminate | by injection Hstep as <-].
Qed.

(** The duplicate-name check of [move_metadata_into_dataframe] cannot
    fire: the names it goes through are the keys of a dictionary. *)
Lemma move_metadata_fold_no_duplicate_error
    (report_data l : list (string * gmap string pyobj)) (df0 : DataFrame) (name : string) :
  NoDup l.*1 →
  (∀ k, k ∈ l.*1 → VStr k ∉ (df_rows df0).*1) →
  for_fold (λ metadata_df report_name,
              report ← from_option Ok (Raise (KeyError report_name))
                                   (od_get report_data report_name);
              values ← job_values report;
              m ← report_metadata report;
              let values := values ++ [md_exe m] in
              if bool_decide (VStr report_name ∈ (df_rows metadata_df).*1)
              then Raise (ValueError ("The name " +:+ report_name +:+
                " is not unique -- attempted to insert a row into the metadata df into a location that already exists!"))
              else df_loc_set metadata_df (VStr report_name) values)
           l.*1 df0
  ≠ Raise (duplicate_name_error name).
Proof.
  match goal with |- context [for_fold ?f] => set (body := f) end.
  revert df0. induction l as [|[k report] l IH]; intros df0 Hnd Hfresh; [discriminate|].
  rewrite fmap_cons in Hnd, Hfresh. apply NoDup_cons in Hnd as [Hk Hnd].
  rewrite fmap_cons. cbn [for_fold fst].
  assert (VStr k ∉ (df_rows df0).*1) as Hk0 by (apply Hfresh; by left).
  assert ((∃ e, body df0 k = Raise e ∧ e ≠ duplicate_name_error name)
          ∨ ∃ values, body df0 k
                      = Ok {| df_columns := df_columns df0;
                              df_rows := df_rows df0 ++ [(VStr k, values)] |}) as Hstep.
  { unfold body. destruct (od_get report_data k) as [r|]; cbn [from_option mbind result_bind];
      [|left; eexists; split; [done | discriminate]].
    unfold job_values. destruct (for_fold _ _ _) as [vals|e] eqn:Hvals;
      cbn [mbind result_bind].
    2:{ left. exists e. split; [done|]. apply job_values_fold_error in Hvals.
        intros ->. discriminate. }
    unfold report_metadata, getitem.
    destruct (r !! "metadata") as [[m| | | | | |]|]; cbn [mbind result_bind mret result_ret];
      try (left; eexists; split; [done | discriminate]).
    rewrite bool_decide_eq_false_2 by done. unfold df_loc_set.
    case_bool_decide; [left; eexists; split; [done | discriminate]|].
    rewrite bool_decide_eq_false_2 by done. right. eauto. }
  destruct Hstep as [(e & -> & Hne) | (values & ->)]; cbn [mbind result_bind].
  - congruence.
  - apply IH; [done|]. intros k' Hk'. cbn [df_rows]. rewrite fmap_app.
    intros [Hin|Hin]%elem_of_app.
    + apply (Hfresh k'); [by right | done].
    + apply list_elem_of_singleton in Hin. injection Hin as ->. done.
Qed.

Lemma move_metadata_never_raises_duplicate
    (report_data : list (string * gmap string pyobj)) (name : string) :
  NoDup (od_keys report_data) →
  move_metadata_into_dataframe report_data ≠ Raise (duplicate_name_error name).
Proof.
  intros Hnd. unfold move_metadata_into_dataframe.
  apply move_metadata_fold_no_duplicate_error; [exact Hnd|].
  intros k _ Hin. by apply elem_of_nil in Hin.
Qed.

Lemma move_metadata_into_dataframe_rows_witness :
  ∃ metadata_df,
    move_metadata_into_dataframe batch_two_jobs = Ok metadata_df
    ∧ df_columns metadata_df
      = ["run_time"; "start_time_nsec"; "start_time_sec"; "end_time_nsec";
         "end_time_sec"; "jobid"; "uid"; "log_ver"; "metadata"; "nprocs"; "exe"]
    ∧ Forall2 (λ job row, row_of_job job.1 job.2 row) batch_two_jobs (df_rows metadata_df).
Proof.
  apply (move_metadata_into_dataframe_rows batch_two_jobs).
  - apply (bool_decide_unpack _). vm_compute. exact I.
  - intros name report Hin.
    assert (report = job_record 1 42 4 ∨ report = job_record 2 43 8) as [-> | ->].
    { apply elem_of_cons in Hin as [[= _ ->]|Hin]; [by left|].
      apply list_elem_of_singleton in Hin as [= _ ->]. by right. }
    + eexists. split; [reflexivity|]. intros col Hcol Hne.
      apply list_elem_of_In in Hcol. simpl in Hcol.
      repeat (destruct Hcol as [<-|Hcol]; [try (vm_compute; eauto); congruence|]).
      destruct Hcol.
    + eexists. split; [reflexivity|]. intros col Hcol Hne.
      apply list_elem_of_In in Hcol. simpl in Hcol.
      repeat (destruct Hcol as [<-|Hcol]; [try (vm_compute; eauto); congruence|]).
      destruct Hcol.
Defined.

(** ** The archive writer *)

Lemma export_loop_ok (output_dir name : string) (report : gmap string pyobj)
    (loaded_modules : list string) :
  (∀ module_name, module_name ∈ loaded_modules →
     ∃ obj, report !! module_name = Some obj
            ∧ (export_parquet obj output_dir name).1 = Ok tt) →
  for_each loaded_modules (λ module_name,
    obj ← lift (getitem report module_name module_name);
    export_parquet obj output_dir name)
  = (Ok tt, flat_map (λ module_name,
                        match report !! module_name with
                        | Some obj => (export_parquet obj output_dir name).2
                        | None => []
                        end) loaded_modules).
Proof.
  intros Hall. rewrite for_each_ok.
  - f_equal. apply flat_map_ext. intros module_name.
    unfold getitem, lift, mbind, io_bind.
    destruct (report !! module_name) as [obj|]; reflexivity.
  - intros module_name (obj & Hobj & Hok)%Hall.
    unfold getitem, lift, mbind, io_bind. rewrite Hobj. exact Hok.
Qed.


Lemma os_path_exists_Some (w : world) (p : string) (k : file_kind) :
  os_path_kind w p = Some k → os_path_exists w p = true.
Proof. intros H. unfold os_path_exists. rewrite H. apply bool_decide_eq_true_2. eauto. Qed.

Lemma os_path_exists_None (w : world) (p : string) :
  os_path_kind w p = None → os_path_exists w p = false.
Proof.
  intros H. unfold os_path_exists. rewrite H. apply bool_decide_eq_false_2.
  by intros [? ?].
Qed.


Lemma os_path_isfile_Some (w : world) (p : string) (k : file_kind) :
  os_path_kind w p = Some k → os_path_isfile w p = bool_decide (k = RegularFile).
Proof.
  intros H. unfold os_path_isfile. rewrite H.
  destruct k; by vm_compute.
Qed.




(** ** Collections that were built export without error *)

Lemma counters_fold_present (records : list counters_record) (self : counters_coll.t)
    (k : Z * Z) :
  is_Some (counters_coll.counters self !! k) ∨ k ∈ (λ r, (cr_rank r, cr_id r)) <$> records →
  is_Some (counters_coll.counters (foldl counters_coll.init_step self records) !! k).
Proof.
  revert self. induction records as [|r records IH]; intros self Hk; simpl.
  - destruct Hk as [Hk|Hk]; [done | by apply elem_of_nil in Hk].
  - apply IH. simpl.
    destruct (decide ((cr_rank r, cr_id r) = k)) as [->|Hne].
    + left. rewrite lookup_insert_eq. eauto.
    + rewrite lookup_insert_ne by done.
      destruct Hk as [Hk|Hk]; [by left|]. rewrite fmap_cons in Hk.
      apply elem_of_cons in Hk as [->|Hk]; [done | by right].
Qed.

Lemma fcounters_fold_present (records : list fcounters_record) (self : fcounters_coll.t)
    (k : Z * Z) :
  (is_Some (fcounters_coll.counters self !! k) ∧ is_Some (fcounters_coll.fcounters self !! k))
  ∨ k ∈ (λ r, (fr_rank r, fr_id r)) <$> records →
  is_Some (fcounters_coll.counters (foldl fcounters_coll.init_step self records) !! k)
  ∧ is_Some (fcounters_coll.fcounters (foldl fcounters_coll.init_step self records) !! k).
Proof.
  revert self. induction records as [|r records IH]; intros self Hk; simpl.
  - destruct Hk as [Hk|Hk]; [done | by apply elem_of_nil in Hk].
  - apply IH. simpl.
    destruct (decide ((fr_rank r, fr_id r) = k)) as [->|Hne].
    + left. rewrite !lookup_insert_eq. eauto.
    + rewrite !lookup_insert_ne by done.
      destruct Hk as [Hk|Hk]; [by left|]. rewrite fmap_cons in Hk.
      apply elem_of_cons in Hk as [->|Hk]; [done | by right].
Qed.

Lemma counters_coll_export_ok (records : list counters_record)
    (module_name directory prefix : string) :
  (counters_coll.export_parquet (counters_coll.init records) module_name directory prefix).1
  = Ok tt.
Proof.
  unfold counters_coll.export_parquet. cbn [counters_coll._file_fillers].
  rewrite for_each_ok; [done|].
  intros k Hk. unfold counters_coll.init in *.
  rewrite counters_fold_metadata in Hk. simpl in Hk.
  destruct (counters_fold_present records
              {| counters_coll.metadata := []; counters_coll.counters := ∅ |} k)
    as [df Hdf]; [by right|].
  unfold getitem. rewrite Hdf. reflexivity.
Qed.

Lemma fcounters_coll_export_ok (records : list fcounters_record)
    (module_name directory prefix : string) :
  (fcounters_coll.export_parquet (fcounters_coll.init records) module_name directory prefix).1
  = Ok tt.
Proof.
  assert (∀ k, k ∈ fcounters_coll.metadata (fcounters_coll.init records) →
               is_Some (fcounters_coll.counters (fcounters_coll.init records) !! k)
               ∧ is_Some (fcounters_coll.fcounters (fcounters_coll.init records) !! k))
    as Hpresent.
  { intros k Hk. unfold fcounters_coll.init in *.
    rewrite fcounters_fold_metadata in Hk. simpl in Hk.
    apply fcounters_fold_present. by right. }
  unfold fcounters_coll.export_parquet, counters_coll.export_parquet.
  cbn [counters_coll._file_fillers].
  rewrite for_each_ok.
  - rewrite for_each_ok; [done|].
    intros k [[df Hdf] _]%Hpresent. unfold getitem.
    cbn [fcounters_coll.super counters_coll.counters]. rewrite Hdf. reflexivity.
  - intros k [_ [df Hdf]]%Hpresent. unfold getitem. rewrite Hdf. reflexivity.
Qed.

Lemma DXT_POSIX_coll_init_NoDup (posix_records : list dxt_record) (c : DXT_POSIX_coll.t) :
  DXT_POSIX_coll.init posix_records = Ok c → NoDup (dxt_id <$> posix_records).
Proof.
  intros Hc. destruct (decide (NoDup (dxt_id <$> posix_records))) as [|Hnd]; [done|].
  unfold DXT_POSIX_coll.init in Hc.
  rewrite dxt_fold_collision in Hc by (by left). discriminate.
Qed.

Lemma DXT_POSIX_coll_export_ok (posix_records : list dxt_record) (c : DXT_POSIX_coll.t)
    (directory prefix : string) :
  DXT_POSIX_coll.init posix_records = Ok c →
  (DXT_POSIX_coll.export_parquet c directory prefix).1 = Ok tt.
Proof.
  intros Hc. pose proof (DXT_POSIX_coll_init_NoDup _ _ Hc) as Hnd.
  unfold DXT_POSIX_coll.init in Hc.
  destruct (dxt_fold_distinct posix_records
              {| DXT_POSIX_coll.metadata := [];
                 DXT_POSIX_coll.read_segments := ∅;
                 DXT_POSIX_coll.write_segments := ∅ |} Hnd)
    as (c' & Hc' & Hmd & Hin & _).
  { intros r _. apply lookup_empty. }
  rewrite Hc in Hc'. injection Hc' as <-.
  unfold DXT_POSIX_coll.export_parquet. rewrite for_each_ok; [done|].
  intros m Hm. rewrite Hmd in Hm. simpl in Hm.
  apply list_elem_of_fmap in Hm as (r & -> & Hr).
  destruct (Hin r Hr) as [Hread Hwrite].
  unfold getitem, metadata_of. cbn [DXT_POSIX_metadata.init DXT_POSIX_metadata.id].
  rewrite Hread, Hwrite. reflexivity.
Qed.

(** ** The reader *)

Lemma read_log_inv (w : world) (filename : string) (output : gmap string pyobj) :
  read_log w filename = Ok output →
  ∃ loaded_modules,
    output !! "loaded_modules" = Some (OStrList loaded_modules)
    ∧ (∀ module_name, module_name ∈ loaded_modules →
         ∃ obj, output !! module_name = Some obj
                ∧ is_collection obj = true
                ∧ ∀ directory prefix, (export_parquet obj directory prefix).1 = Ok tt)
    ∧ ("MPI-IO" ∉ loaded_modules) ∧ ("DXT_MPIIO" ∉ loaded_modules).
Proof.
  unfold read_log.
  destruct (os_path_exists w filename); [|discriminate].
  destruct (os_path_isfile w filename); [|discriminate].
  cbn [negb]. destruct (darshan_DarshanReport w filename) as [report|e]; [|discriminate].
  cbn [mbind result_bind].
  destruct (bool_decide ("POSIX" ∈ rp_modules report));
    destruct (bool_decide ("LUSTRE" ∈ rp_modules report));
    destruct (bool_decide ("STDIO" ∈ rp_modules report));
    destruct (bool_decide ("DXT_POSIX" ∈ rp_modules report));
    cbn [mbind result_bind mret result_ret app];
    try (destruct (DXT_POSIX_coll.init (rp_records_DXT_POSIX report)) as [c|e] eqn:Hdxt;
         [|discriminate]);
    cbn [mbind result_bind mret result_ret app];
    intros [= <-];
    (eexists; split; [apply lookup_insert_eq|]; split;
     [ intros module_name Hm;
       repeat (apply elem_of_cons in Hm as [->|Hm]);
       try (by apply elem_of_nil in Hm);
       (eexists; split; [by simplify_map_eq|]; split; [reflexivity|];
        intros directory prefix;
        first [ apply fcounters_coll_export_ok
              | apply counters_coll_export_ok
              | by apply (DXT_POSIX_coll_export_ok (rp_records_DXT_POSIX report)) ])
     | split; intros Hin;
       repeat (apply elem_of_cons in Hin as [Hin|Hin]; [discriminate Hin|]);
       by apply elem_of_nil in Hin ]).
Qed.

Lemma counters_init_keys_present (records : list counters_record) :
  collection_keys_present (OLUSTRE_coll (LUSTRE_coll.init records)).
Proof.
  intros k Hk. unfold LUSTRE_coll.init, counters_coll.init in *.
  rewrite counters_fold_metadata in Hk. apply counters_fold_present. by right.
Qed.

Lemma fcounters_init_keys_present (records : list fcounters_record) :
  collection_keys_present (OPOSIX_coll (fcounters_coll.init records)).
Proof.
  intros k Hk. unfold fcounters_coll.init in *.
  rewrite fcounters_fold_metadata in Hk. apply fcounters_fold_present. by right.
Qed.

Lemma dxt_init_keys_present (posix_records : list dxt_record) (c : DXT_POSIX_coll.t) :
  DXT_POSIX_coll.init posix_records = Ok c →
  collection_keys_present (ODXT_POSIX_coll c).
Proof.
  intros Hc. pose proof (DXT_POSIX_coll_init_NoDup _ _ Hc) as Hnd.
  unfold DXT_POSIX_coll.init in Hc.
  destruct (dxt_fold_distinct posix_records
              {| DXT_POSIX_coll.metadata := [];
                 DXT_POSIX_coll.read_segments := ∅;
                 DXT_POSIX_coll.write_segments := ∅ |} Hnd)
    as (c' & Hc' & Hmd & Hin & _).
  { intros r _. apply lookup_empty. }
  rewrite Hc in Hc'. injection Hc' as <-.
  intros m Hm. rewrite Hmd in Hm. cbn [app DXT_POSIX_coll.metadata] in Hm.
  apply list_elem_of_fmap in Hm as (r & -> & Hr).
  destruct (Hin r Hr) as [Hread Hwrite].
  unfold metadata_of. cbn [DXT_POSIX_metadata.init DXT_POSIX_metadata.id].
  rewrite Hread, Hwrite. eauto.
Qed.

(** The names [read_log] lists as loaded are among its four collection
    keys, and each holds a collection with all its tables. *)
Lemma read_log_loaded_keys (w : world) (filename : string) (output : gmap string pyobj) :
  read_log w filename = Ok output →
  ∃ loaded_modules,
    output !! "loaded_modules" = Some (OStrList loaded_modules)
    ∧ ∀ module_name, module_name ∈ loaded_modules →
        module_name ∈ ["POSIX_coll"; "LUSTRE_coll"; "STDIO_coll"; "DXT_POSIX_coll_object"]
        ∧ ∃ obj, output !! module_name = Some obj ∧ collection_keys_present obj.
Proof.
  unfold read_log.
  destruct (os_path_exists w filename); [|discriminate].
  destruct (os_path_isfile w filename); [|discriminate].
  cbn [negb]. destruct (darshan_DarshanReport w filename) as [report|e]; [|discriminate].
  cbn [mbind result_bind].
  destruct (bool_decide ("POSIX" ∈ rp_modules report));
    destruct (bool_decide ("LUSTRE" ∈ rp_modules report));
    destruct (bool_decide ("STDIO" ∈ rp_modules report));
    destruct (bool_decide ("DXT_POSIX" ∈ rp_modules report));
    cbn [mbind result_bind mret result_ret app];
    try (destruct (DXT_POSIX_coll.init (rp_records_DXT_POSIX report)) as [c|e] eqn:Hdxt;
         [|discriminate]);
    cbn [mbind result_bind mret result_ret app];
    intros [= <-];
    (eexists; split; [apply lookup_insert_eq|];
     intros module_name Hm;
     repeat (apply elem_of_cons in Hm as [->|Hm]);
     try (by apply elem_of_nil in Hm);
     (split; [apply list_elem_of_In; simpl; tauto|]);
     (eexists; split; [by simplify_map_eq|];
      first [ apply fcounters_init_keys_present
            | apply counters_init_keys_present
            | by apply (dxt_init_keys_present (rp_records_DXT_POSIX report)) ])).
Qed.

(** What [read_log] stores for the modules it leaves aside and for the
    detailed-segment module. *)
Lemma read_log_keys (w : world) (filename : string) (output : gmap string pyobj) :
  read_log w filename = Ok output →
  output !! "HEATMAP" = None ∧ output !! "MPI-IO" = None ∧ output !! "DXT_MPIIO" = None
  ∧ ∃ report, darshan_DarshanReport w filename = Ok report
      ∧ ("DXT_POSIX" ∈ rp_modules report →
         ∃ c, DXT_POSIX_coll.init (rp_records_DXT_POSIX report) = Ok c
              ∧ output !! "DXT_POSIX_coll_object" = Some (ODXT_POSIX_coll c)).
Proof.
  unfold read_log.
  destruct (os_path_exists w filename); [|discriminate].
  destruct (os_path_isfile w filename); [|discriminate].
  cbn [negb]. destruct (darshan_DarshanReport w filename) as [report|e]; [|discriminate].
  cbn [mbind result_bind].
  destruct (bool_decide ("POSIX" ∈ rp_modules report));
    destruct (bool_decide ("LUSTRE" ∈ rp_modules report));
    destruct (bool_decide ("STDIO" ∈ rp_modules report));
    (case_bool_decide as Hin;
     cbn [mbind result_bind mret result_ret app];
     try (destruct (DXT_POSIX_coll.init (rp_records_DXT_POSIX report)) as [c|e] eqn:Hdxt;
          [|discriminate]);
     cbn [mbind result_bind mret result_ret app];
     intros [= <-];
     (split; [by simplify_map_eq|]); (split; [by simplify_map_eq|]);
     (split; [by simplify_map_eq|]);
     exists report; (split; [done|]); intros Hin';
     [ exists c; split; [done | by simplify_map_eq] | done ]).
Qed.

(** C10. In a dictionary returned by [read_log], every name of the
    [loaded_modules] list is one of the four keys [POSIX_coll],
    [LUSTRE_coll], [STDIO_coll], [DXT_POSIX_coll_object], is a key of
    the dictionary, and what the key holds is a collection object (it
    has [export_parquet(directory, prefix)]) in which every identity of
    [metadata] is a key of the tables; so the export loop of the archive
    writer over the dictionary fails on no subscript and on no method
    call ([KeyError], [TypeError], [AttributeError]).  Whatever modules
    the log has, the list names nothing else: neither [MPI-IO] nor
    [DXT_MPIIO] is in it, and the dictionary has no such key. *)
Theorem read_log_loaded_modules_are_collections (w : world) (filename : string)
    (output : gmap string pyobj) :
  read_log w filename = Ok output →
  ∃ loaded_modules,
    output !! "loaded_modules" = Some (OStrList loaded_modules)
    ∧ (∀ module_name, module_name ∈ loaded_modules →
         module_name ∈ ["POSIX_coll"; "LUSTRE_coll"; "STDIO_coll"; "DXT_POSIX_coll_object"]
         ∧ ∃ obj, output !! module_name = Some obj
                  ∧ is_collection obj = true
                  ∧ collection_keys_present obj)
    ∧ ("MPI-IO" ∉ loaded_modules) ∧ ("DXT_MPIIO" ∉ loaded_modules)
    ∧ output !! "MPI-IO" = None ∧ output !! "DXT_MPIIO" = None
    ∧ ∀ directory prefix e,
        (for_each loaded_modules (λ module_name,
           obj ← lift (getitem output module_name module_name);
           export_parquet obj directory prefix)).1 = Raise e →
        is_lookup_error e = false.
Proof.
  intros Hrun.
  destruct (read_log_inv w filename output Hrun) as (lm & Hlm & Hmods & Hmpi & Hdxt).
  destruct (read_log_loaded_keys w filename output Hrun) as (lm' & Hlm' & Hkeys).
  rewrite Hlm in Hlm'. injection Hlm' as <-.
  destruct (read_log_keys w filename output Hrun) as (_ & Hnompi & Hnodxt & _).
  exists lm. split; [done|]. split; [|repeat (split; [done|])].
  - intros m Hm. destruct (Hkeys m Hm) as (Hfour & obj & Hobj & Hpresent).
    split; [done|]. exists obj. split; [done|]. split; [|done].
    destruct (Hmods m Hm) as (obj' & Hobj' & Hcoll & _). congruence.
  - intros directory prefix e. rewrite export_loop_ok; [discriminate|].
    intros m (obj & Hobj & _ & Hok)%Hmods. eauto.
Qed.

Lemma read_log_loaded_modules_are_collections_witness :
  ∃ output,
    read_log world_same_name "logs/b.darshan" = Ok output
    ∧ ∃ loaded_modules,
        output !! "loaded_modules" = Some (OStrList loaded_modules)
        ∧ (∀ module_name, module_name ∈ loaded_modules →
             module_name
             ∈ ["POSIX_coll"; "LUSTRE_coll"; "STDIO_coll"; "DXT_POSIX_coll_object"]
             ∧ ∃ obj, output !! module_name = Some obj
                      ∧ is_collection obj = true
                      ∧ collection_keys_present obj)
        ∧ ("MPI-IO" ∉ loaded_modules) ∧ ("DXT_MPIIO" ∉ loaded_modules)
        ∧ output !! "MPI-IO" = None ∧ output !! "DXT_MPIIO" = None
        ∧ ∀ directory prefix e,
            (for_each loaded_modules (λ module_name,
               obj ← lift (getitem output module_name module_name);
               export_parquet obj directory prefix)).1 = Raise e →
            is_lookup_error e = false.
Proof.
  assert (∃ output, read_log world_same_name "logs/b.darshan" = Ok output)
    as [output Hrun] by (eexists; reflexivity).
  exists output. split; [exact Hrun|].
  exact (read_log_loaded_modules_are_collections world_same_name "logs/b.darshan"
           output Hrun).
Defined.



Lemma od_set_elem_of {V} (d : list (string * V)) (k : string) (v : V) (x : string * V) :
  x ∈ od_set d k v → x = (k, v) ∨ x ∈ d.
Proof.
  induction d as [|[k' v'] d IH]; cbn [od_set].
  - intros ->%list_elem_of_singleton. by left.
  - case_bool_decide.
    + intros [->|Hin]%elem_of_cons; [by left | right; by right].
    + intros [->|Hin]%elem_of_cons; [right; by left|].
      destruct (IH Hin) as [->|Hd]; [by left | right; by right].
Qed.

(** The batch that the loop of [aggregate_darshan] builds: its keys are
    distinct, and each job record is stored under its generated name. *)
Lemma collected_report_data_inv (w : world) (directory : string) (files : list string)
    (d0 d : list (string * gmap string pyobj)) :
  for_fold (λ collected_report_data f,
              tmp_report_data ← read_log w (path_join directory f);
              tmp_name ← generate_name_for_report tmp_report_data;
              mret (od_set collected_report_data tmp_name tmp_report_data))
           files d0 = Ok d →
  NoDup (od_keys d0) →
  (∀ k r, (k, r) ∈ d0 → generate_name_for_report r = Ok k) →
  NoDup (od_keys d) ∧ (∀ k r, (k, r) ∈ d → generate_name_for_report r = Ok k).
Proof.
  revert d0. induction files as [|f files IH]; intros d0; cbn [for_fold].
  - intros [= <-]. done.
  - destruct (read_log w (path_join directory f)) as [tmp|e]; cbn [mbind result_bind];
      [|discriminate].
    destruct (generate_name_for_report tmp) as [name|e] eqn:Hname;
      cbn [mbind result_bind mret result_ret]; [|discriminate].
    intros Hrun Hnd Hkeys. apply (IH _ Hrun).
    + by apply od_set_NoDup.
    + intros k r [[= -> ->]|Hin]%od_set_elem_of; [done | by apply Hkeys].
Qed.

(** Whatever the logs, the metadata table builder does not raise its
    duplicate-name error on the batch of the orchestrator. *)
Lemma collected_report_data_never_duplicate (w : world) (directory : string)
    (files : list string) (d : list (string * gmap string pyobj)) (name : string) :
  for_fold (λ collected_report_data f,
              tmp_report_data ← read_log w (path_join directory f);
              tmp_name ← generate_name_for_report tmp_report_data;
              mret (od_set collected_report_data tmp_name tmp_report_data))
           files [] = Ok d →
  move_metadata_into_dataframe d ≠ Raise (duplicate_name_error name).
Proof.
  intros Hrun. apply move_metadata_never_raises_duplicate.
  apply (collected_report_data_inv w directory files [] d Hrun).
  - constructor.
  - intros k r Hin. by apply elem_of_nil in Hin.
Qed.

(** ** The orchestrator *)

(** C1. Two logs of one directory that give the same generated name
    ([1_42]: both are of user 1, job 42): [aggregate_darshan] returns
    without an error.  The second job record took the place of the first
    in the batch dictionary before the metadata table was built, so the
    table has the one row of the second log, and only the modules of the
    second log are exported. *)
Theorem aggregate_darshan_same_name_keeps_one_job :
  (∃ record_a record_b,
     read_log world_same_name "logs/a.darshan" = Ok record_a
     ∧ read_log world_same_name "logs/b.darshan" = Ok record_b
     ∧ generate_name_for_report record_a = Ok "1_42"
     ∧ generate_name_for_report record_b = Ok "1_42")
  ∧ collect_logfiles world_same_name "logs" = Ok ["a.darshan"; "b.darshan"]
  ∧ aggregate_darshan world_same_name "logs" "out"
    = (Ok tt,
       [ Mkdir "out";
         ToParquet "out/metadata.parquet"
           {| df_columns := mdf_header; df_rows := [row_b] |};
         ToParquet "out/LUSTRE_1_42_0_9_counters.parquet" (df_small 5) ]).
Proof.
  split; [|split].
  - do 2 eexists. split; [reflexivity|]. split; [reflexivity|].
    split; reflexivity.
  - reflexivity.
  - reflexivity.
Qed.

(** C2. A log in which the library finds the modules POSIX, HEATMAP and
    DXT_POSIX: [read_log] stores nothing for HEATMAP, but it reads the
    DXT_POSIX records into a [DXT_POSIX_coll], stores the collection
    under [DXT_POSIX_coll_object] and lists that key in
    [loaded_modules]; exporting the collection writes the read and the
    write segment table of the record. *)
Theorem read_log_loads_DXT_POSIX :
  ∃ output c,
    read_log world_same_name "logs/a.darshan" = Ok output
    ∧ output !! "modules" = Some (OStrList ["POSIX"; "HEATMAP"; "DXT_POSIX"])
    ∧ output !! "HEATMAP" = None
    ∧ output !! "DXT_POSIX_coll_object" = Some (ODXT_POSIX_coll c)
    ∧ output !! "loaded_modules" = Some (OStrList ["POSIX_coll"; "DXT_POSIX_coll_object"])
    ∧ DXT_POSIX_coll.read_segments c !! 7 = Some (df_small 4)
    ∧ DXT_POSIX_coll.write_segments c !! 7 = Some (df_small 3)
    ∧ export_parquet (ODXT_POSIX_coll c) "out" "1_42"
      = (Ok tt,
         [ ToParquet "out/DXTPOSIX_1_42_7_0_n01_read_segments.parquet" (df_small 4);
           ToParquet "out/DXTPOSIX_1_42_7_0_n01_write_segments.parquet" (df_small 3) ]).
Proof.
  do 2 eexists. split; [reflexivity|].
  repeat split; reflexivity.
Qed.

(** * Further properties *)

(** ** File names *)

Lemma no_char_app (c : ascii) (s1 s2 : string) :
  no_char c (s1 +:+ s2) ↔ no_char c s1 ∧ no_char c s2.
Proof.
  induction s1 as [|a s1 IH].
  - change ("" +:+ s2) with s2. simpl. tauto.
  - change (String a s1 +:+ s2) with (String a (s1 +:+ s2)).
    cbn [no_char]. rewrite IH. tauto.
Qed.

Lemma pretty_N_char_not_underscore (x : N) : pretty_N_char x ≠ "_"%char.
Proof. unfold pretty_N_char. by repeat case_match. Qed.

Lemma pretty_N_go_no_underscore (x : N) (s : string) :
  no_char "_" s → no_char "_" (pretty_N_go x s).
Proof.
  revert s. induction (N.lt_wf_0 x) as [x _ IH]; intros s Hs.
  assert (x = 0 ∨ 0 < x)%N as [->|Hpos] by lia.
  - by rewrite pretty_N_go_0.
  - rewrite pretty_N_go_step by done. apply IH.
    + apply N.div_lt; lia.
    + split; [apply pretty_N_char_not_underscore | done].
Qed.

(** The decimal text of an integer holds no underscore. *)
Lemma str_int_no_underscore (z : Z) : no_char "_" (str_int z).
Proof.
  unfold str_int, pretty, pretty_Z.
  assert (∀ p : positive, no_char "_" (pretty p)) as Hpos.
  { intros p. unfold pretty, pretty_positive, pretty, pretty_N.
    case_decide; [by vm_compute|]. by apply pretty_N_go_no_underscore. }
  destruct z as [|p|p]; [by vm_compute | apply Hpos |].
  change ("-" +:+ pretty p) with (String "-" (pretty p)).
  split; [done | apply Hpos].
Qed.

(** Two texts cut at their first underscore. *)
Lemma split_at_underscore (s1 s2 t1 t2 : string) :
  no_char "_" s1 → no_char "_" s2 →
  s1 +:+ String "_" t1 = s2 +:+ String "_" t2 → s1 = s2 ∧ t1 = t2.
Proof.
  revert s2. induction s1 as [|a s1 IH]; intros [|b s2] H1 H2 Heq.
  - by injection Heq as ->.
  - change (String "_" t1 = String b (s2 +:+ String "_" t2)) in Heq.
    injection Heq as <- _. by destruct H2 as [[] _].
  - change (String a (s1 +:+ String "_" t1) = String "_" t2) in Heq.
    injection Heq as -> _. by destruct H1 as [[] _].
  - change (String a (s1 +:+ String "_" t1) = String b (s2 +:+ String "_" t2)) in Heq.
    injection Heq as -> Heq. destruct H1 as [_ H1], H2 as [_ H2].
    destruct (IH s2 H1 H2 Heq) as [-> ->]. done.
Qed.

Lemma str_append_inj_l (s t1 t2 : string) : s +:+ t1 = s +:+ t2 → t1 = t2.
Proof.
  induction s as [|a s IH]; [done|].
  change (String a (s +:+ t1) = String a (s +:+ t2) → t1 = t2).
  intros [= Heq]. by apply IH.
Qed.

(** ** Job names *)

(** X1. For two job records whose uid and jobid are integers, the
    generated name is the decimal uid, an underscore and the decimal
    jobid, and the two names are equal exactly when the two records
    have the same uid and the same jobid. *)
Theorem generate_name_for_report_injective
    (report1 report2 : gmap string pyobj) (m1 m2 : metadata_t) (uid1 jobid1 uid2 jobid2 : Z) :
  report1 !! "metadata" = Some (OMetadata m1) →
  md_job m1 !! "uid" = Some (VInt uid1) →
  md_job m1 !! "jobid" = Some (VInt jobid1) →
  report2 !! "metadata" = Some (OMetadata m2) →
  md_job m2 !! "uid" = Some (VInt uid2) →
  md_job m2 !! "jobid" = Some (VInt jobid2) →
  generate_name_for_report report1 = Ok (str_int uid1 +:+ "_" +:+ str_int jobid1)
  ∧ (generate_name_for_report report1 = generate_name_for_report report2
     ↔ uid1 = uid2 ∧ jobid1 = jobid2).
Proof.
  intros Hm1 Hu1 Hj1 Hm2 Hu2 Hj2.
  assert (∀ report m uid jobid,
            report !! "metadata" = Some (OMetadata m) →
            md_job m !! "uid" = Some (VInt uid) →
            md_job m !! "jobid" = Some (VInt jobid) →
            generate_name_for_report report = Ok (str_int uid +:+ "_" +:+ str_int jobid))
    as Hname.
  { intros report m uid jobid Hm Hu Hj.
    unfold generate_name_for_report, report_metadata, getitem.
    rewrite Hm. cbn [mbind result_bind mret result_ret]. rewrite Hu, Hj. reflexivity. }
  split; [by apply (Hname _ m1)|].
  rewrite (Hname _ m1 uid1 jobid1), (Hname _ m2 uid2 jobid2) by done.
  split; [|by intros [-> ->]].
  intros [= Heq].
  apply split_at_underscore in Heq as [Hu Hj]; try apply str_int_no_underscore.
  split; eapply (inj (pretty : Z → string)); done.
Qed.

Lemma generate_name_for_report_injective_witness :
  generate_name_for_report (job_record 1 42 4) = Ok "1_42"
  ∧ (generate_name_for_report (job_record 1 42 4) = generate_name_for_report (job_record 2 43 8)
     ↔ (1 = 2 ∧ 42 = 43)).
Proof.
  exact (generate_name_for_report_injective (job_record 1 42 4) (job_record 2 43 8)
           {| md_job := job_fields 1 42 4; md_exe := VStr "./a.out" |}
           {| md_job := job_fields 2 43 8; md_exe := VStr "./a.out" |}
           1 42 2 43 eq_refl eq_refl eq_refl eq_refl eq_refl eq_refl).
Defined.

(** ** What an export writes *)

Lemma str_append_assoc (s1 s2 s3 : string) : (s1 +:+ s2) +:+ s3 = s1 +:+ s2 +:+ s3.
Proof.
  induction s1 as [|a s1 IH]; [done|].
  change (String a ((s1 +:+ s2) +:+ s3) = String a (s1 +:+ s2 +:+ s3)). by rewrite IH.
Qed.

Lemma for_each_fmap_events {A B} (f : A → B) (g : A → list event) (l : list A)
    (body : B → io unit) :
  (∀ x, x ∈ l → body (f x) = (Ok tt, g x)) →
  for_each (f <$> l) body = (Ok tt, flat_map g l).
Proof.
  induction l as [|x l IH]; intros Hall; [done|].
  rewrite fmap_cons. cbn [for_each flat_map].
  rewrite (Hall x) by (by left). rewrite bind_ok_events.
  rewrite IH by (intros y Hy; apply Hall; by right). done.
Qed.

Lemma flat_map_singleton {A B} (g : A → B) (l : list A) :
  flat_map (λ x, [g x]) l = g <$> l.
Proof. induction l as [|x l IH]; [done|]. simpl. by rewrite IH. Qed.

Lemma counters_init_lookup (records : list counters_record) (r : counters_record) :
  NoDup ((λ r, (cr_rank r, cr_id r)) <$> records) → r ∈ records →
  counters_coll.counters (counters_coll.init records) !! (cr_rank r, cr_id r)
  = Some (cr_counters r).
Proof.
  unfold counters_coll.init.
  generalize {| counters_coll.metadata := []; counters_coll.counters := ∅ |}.
  induction records as [|r' records IH]; intros self Hnd Hin.
  - by apply elem_of_nil in Hin.
  - rewrite fmap_cons in Hnd. apply NoDup_cons in Hnd as [Hr' Hnd]. cbn [foldl].
    apply elem_of_cons in Hin as [->|Hin]; [|by apply IH].
    rewrite counters_fold_other.
    + apply lookup_insert_eq.
    + intros r Hr Heq. apply Hr'. apply list_elem_of_fmap. by exists r.
Qed.

Lemma fcounters_init_lookup (records : list fcounters_record) (r : fcounters_record) :
  NoDup ((λ r, (fr_rank r, fr_id r)) <$> records) → r ∈ records →
  fcounters_coll.counters (fcounters_coll.init records) !! (fr_rank r, fr_id r)
  = Some (fr_counters r)
  ∧ fcounters_coll.fcounters (fcounters_coll.init records) !! (fr_rank r, fr_id r)
    = Some (fr_fcounters r).
Proof.
  unfold fcounters_coll.init.
  generalize {| fcounters_coll.metadata := []; fcounters_coll.counters := ∅;
                fcounters_coll.fcounters := ∅ |}.
  induction records as [|r' records IH]; intros self Hnd Hin.
  - by apply elem_of_nil in Hin.
  - rewrite fmap_cons in Hnd. apply NoDup_cons in Hnd as [Hr' Hnd]. cbn [foldl].
    apply elem_of_cons in Hin as [->|Hin]; [|by apply IH].
    match goal with
    | |- context [foldl _ ?s records] =>
        destruct (fcounters_fold_other records s (fr_rank r', fr_id r')) as [-> ->]
    end.
    + intros r Hr Heq. apply Hr'. apply list_elem_of_fmap. by exists r.
    + split; apply lookup_insert_eq.
Qed.

Lemma counters_export_run (records : list counters_record)
    (module_name directory prefix : string) :
  counters_coll.export_parquet (counters_coll.init records) module_name directory prefix
  = (Ok tt,
     (λ r, ToParquet
             (path_join directory
                (module_name +:+ "_" +:+ prefix +:+ "_" +:+ str_int (cr_rank r) +:+ "_"
                 +:+ str_int (cr_id r) +:+ "_counters.parquet"))
             (default (cr_counters r)
                (counters_coll.counters (counters_coll.init records)
                   !! (cr_rank r, cr_id r)))) <$> records).
Proof.
  unfold counters_coll.export_parquet. cbn [counters_coll._file_fillers].
  assert (counters_coll.metadata (counters_coll.init records)
          = (λ r, (cr_rank r, cr_id r)) <$> records) as ->
    by (unfold counters_coll.init; by rewrite counters_fold_metadata).
  match goal with
  | |- _ = (_, ?g <$> _) => rewrite <- (flat_map_singleton g)
  end.
  apply for_each_fmap_events.
  intros r Hr. cbn [fst snd str_join].
  destruct (counters_fold_present records
              {| counters_coll.metadata := []; counters_coll.counters := ∅ |}
              (cr_rank r, cr_id r)) as [df Hdf];
    [right; apply list_elem_of_fmap; by exists r|].
  fold (counters_coll.init records) in Hdf.
  unfold getitem. rewrite Hdf. rewrite bind_lift_ok. cbn [default].
  unfold emit. by rewrite !str_append_assoc.
Qed.

(** X2. Exporting a counters-only collection fails on no lookup (every
    identity of [metadata] is a key of [counters], so no [KeyError]),
    and the writes it performs are one per record of the list the
    collection was built from, in the order of the list, named by
    module, prefix, rank and id (so two records of one identity write
    the same path twice); when the identities are distinct, each write
    holds the counters table of its record. *)
Theorem counters_coll_export_one_file_per_record (records : list counters_record)
    (module_name directory prefix : string) :
  let path r := path_join directory
                  (module_name +:+ "_" +:+ prefix +:+ "_" +:+ str_int (cr_rank r) +:+ "_"
                   +:+ str_int (cr_id r) +:+ "_counters.parquet") in
  let run := counters_coll.export_parquet (counters_coll.init records)
               module_name directory prefix in
  (∀ e, run.1 = Raise e → is_lookup_error e = false)
  ∧ event_path <$> run.2 = path <$> records
  ∧ (NoDup ((λ r, (cr_rank r, cr_id r)) <$> records) →
     run.2 = (λ r, ToParquet (path r) (cr_counters r)) <$> records).
Proof.
  intros path run. unfold run. rewrite counters_export_run. cbn [fst snd].
  split; [discriminate|]. split.
  - rewrite <- list_fmap_compose. done.
  - intros Hnd. apply list_fmap_ext. intros i r Hr.
    rewrite counters_init_lookup; [done | done |].
    by apply list_elem_of_lookup_2 in Hr.
Qed.

Lemma counters_coll_export_one_file_per_record_witness :
  (LUSTRE_coll.export_parquet (LUSTRE_coll.init lustre_records_colliding) "out" "1_42").2
  = [ ToParquet "out/LUSTRE_1_42_0_7_counters.parquet" (df_small 3);
      ToParquet "out/LUSTRE_1_42_1_7_counters.parquet" (df_small 2);
      ToParquet "out/LUSTRE_1_42_0_7_counters.parquet" (df_small 3) ]
  ∧ (LUSTRE_coll.export_parquet (LUSTRE_coll.init (take 2 lustre_records_colliding))
       "out" "1_42").2
    = [ ToParquet "out/LUSTRE_1_42_0_7_counters.parquet" (df_small 1);
        ToParquet "out/LUSTRE_1_42_1_7_counters.parquet" (df_small 2) ].
Proof.
  split; [reflexivity|].
  apply (proj2 (proj2 (counters_coll_export_one_file_per_record
                         (take 2 lustre_records_colliding) "LUSTRE" "out" "1_42"))).
  apply (bool_decide_unpack _). vm_compute. exact I.
Defined.


Lemma fcounters_export_run (records : list fcounters_record)
    (module_name directory prefix : string) :
  let path kind r := path_join directory
                       (module_name +:+ "_" +:+ prefix +:+ "_" +:+ str_int (fr_rank r)
                        +:+ "_" +:+ str_int (fr_id r) +:+ kind) in
  let self := fcounters_coll.init records in
  fcounters_coll.export_parquet self module_name directory prefix
  = (Ok tt,
     ((λ r, ToParquet (path "_counters.parquet" r)
              (default (fr_counters r)
                 (fcounters_coll.counters self !! (fr_rank r, fr_id r)))) <$> records)
     ++ ((λ r, ToParquet (path "_fcounters.parquet" r)
                 (default (fr_fcounters r)
                    (fcounters_coll.fcounters self !! (fr_rank r, fr_id r)))) <$> records)).
Proof.
  intros path self.
  set (stored_c r := default (fr_counters r)
                       (fcounters_coll.counters self !! (fr_rank r, fr_id r))).
  set (stored_f r := default (fr_fcounters r)
                       (fcounters_coll.fcounters self !! (fr_rank r, fr_id r))).
  assert (fcounters_coll.metadata self = (λ r, (fr_rank r, fr_id r)) <$> records) as Hmd
    by (unfold self, fcounters_coll.init; by rewrite fcounters_fold_metadata).
  assert (∀ r, r ∈ records →
            fcounters_coll.counters self !! (fr_rank r, fr_id r) = Some (stored_c r)
            ∧ fcounters_coll.fcounters self !! (fr_rank r, fr_id r) = Some (stored_f r))
    as Hstored.
  { intros r Hr.
    destruct (fcounters_fold_present records
                {| fcounters_coll.metadata := []; fcounters_coll.counters := ∅;
                   fcounters_coll.fcounters := ∅ |} (fr_rank r, fr_id r))
      as [[c Hc] [f Hf]]; [right; apply list_elem_of_fmap; by exists r|].
    unfold stored_c, stored_f, self, fcounters_coll.init. by rewrite Hc, Hf. }
  unfold fcounters_coll.export_parquet, counters_coll.export_parquet.
  cbn [counters_coll._file_fillers fcounters_coll.super
       counters_coll.metadata counters_coll.counters].
  rewrite Hmd.
  rewrite (for_each_fmap_events _
             (λ r, [ToParquet (path "_fcounters.parquet" r) (stored_f r)])).
  2:{ intros r Hr. cbn [fst snd str_join]. unfold getitem.
      rewrite (proj2 (Hstored r Hr)), bind_lift_ok.
      unfold emit, path. by rewrite !str_append_assoc. }
  rewrite (for_each_fmap_events _
             (λ r, [ToParquet (path "_counters.parquet" r) (stored_c r)])).
  2:{ intros r Hr. cbn [fst snd str_join]. unfold getitem.
      rewrite (proj1 (Hstored r Hr)), bind_lift_ok.
      unfold emit, path. by rewrite !str_append_assoc. }
  rewrite bind_ok_events.
  cbn [fst snd]. by rewrite !flat_map_singleton.
Qed.

(** X3. Exporting a counters+float-counters collection fails on no
    lookup (no [KeyError]), and the writes it performs are two per
    record: first the counters files of all the records, in the order of
    the list, then their float-counters files, in the same order; when
    the identities are distinct, each write holds the table of its
    record. *)
Theorem fcounters_coll_export_counters_then_fcounters (records : list fcounters_record)
    (module_name directory prefix : string) :
  let path kind r := path_join directory
                       (module_name +:+ "_" +:+ prefix +:+ "_" +:+ str_int (fr_rank r)
                        +:+ "_" +:+ str_int (fr_id r) +:+ kind) in
  let run := fcounters_coll.export_parquet (fcounters_coll.init records)
               module_name directory prefix in
  (∀ e, run.1 = Raise e → is_lookup_error e = false)
  ∧ event_path <$> run.2
    = (path "_counters.parquet" <$> records) ++ (path "_fcounters.parquet" <$> records)
  ∧ (NoDup ((λ r, (fr_rank r, fr_id r)) <$> records) →
     run.2 = ((λ r, ToParquet (path "_counters.parquet" r) (fr_counters r)) <$> records)
             ++ ((λ r, ToParquet (path "_fcounters.parquet" r) (fr_fcounters r)) <$> records)).
Proof.
  intros path run. unfold run. rewrite fcounters_export_run. cbn [fst snd].
  split; [discriminate|]. split.
  - rewrite fmap_app, <- !list_fmap_compose. done.
  - intros Hnd. f_equal; apply list_fmap_ext; intros i r Hr;
      apply list_elem_of_lookup_2 in Hr;
      destruct (fcounters_init_lookup records r Hnd Hr) as [Hc Hf];
      by rewrite ?Hc, ?Hf.
Qed.

Lemma fcounters_coll_export_counters_then_fcounters_witness :
  (POSIX_coll.export_parquet (POSIX_coll.init (drop 1 posix_records_colliding)) "out" "1_42").2
  = [ ToParquet "out/POSIX_1_42_0_7_counters.parquet" (df_small 2);
      ToParquet "out/POSIX_1_42_2_9_counters.parquet" (df_small 3);
      ToParquet "out/POSIX_1_42_0_7_fcounters.parquet" (df_small 20);
      ToParquet "out/POSIX_1_42_2_9_fcounters.parquet" (df_small 30) ].
Proof.
  apply (proj2 (proj2 (fcounters_coll_export_counters_then_fcounters
                         (drop 1 posix_records_colliding) "POSIX" "out" "1_42"))).
  apply (bool_decide_unpack _). vm_compute. exact I.
Defined.

Lemma dxt_export_run (posix_records : list dxt_record)
    (c : DXT_POSIX_coll.t) (directory prefix : string) :
  DXT_POSIX_coll.init posix_records = Ok c →
  DXT_POSIX_coll.export_parquet c directory prefix
  = (Ok tt,
     flat_map (λ r,
       let stem := "DXTPOSIX_" +:+ prefix +:+ "_" +:+ str_int (dxt_id r) +:+ "_"
                   +:+ str_int (dxt_rank r) +:+ "_" +:+ dxt_hostname r in
       [ ToParquet (path_join directory (stem +:+ "_read_segments.parquet"))
                   (dxt_read_segments r);
         ToParquet (path_join directory (stem +:+ "_write_segments.parquet"))
                   (dxt_write_segments r) ]) posix_records).
Proof.
  intros Hc. pose proof (DXT_POSIX_coll_init_NoDup _ _ Hc) as Hnd.
  unfold DXT_POSIX_coll.init in Hc.
  destruct (dxt_fold_distinct posix_records
              {| DXT_POSIX_coll.metadata := [];
                 DXT_POSIX_coll.read_segments := ∅;
                 DXT_POSIX_coll.write_segments := ∅ |} Hnd)
    as (c' & Hc' & Hmd & Hin & _).
  { intros r _. apply lookup_empty. }
  rewrite Hc in Hc'. injection Hc' as <-.
  unfold DXT_POSIX_coll.export_parquet. rewrite Hmd. cbn [app].
  apply for_each_fmap_events. intros r Hr.
  destruct (Hin r Hr) as [Hread Hwrite].
  unfold metadata_of, DXT_POSIX_metadata.to_filename.
  cbn [DXT_POSIX_metadata.init DXT_POSIX_metadata.id DXT_POSIX_metadata.rank
       DXT_POSIX_metadata.hostname str_join].
  unfold getitem. rewrite Hread, Hwrite.
  rewrite bind_lift_ok, bind_emit, bind_lift_ok. cbn [fst snd emit].
  by rewrite !str_append_assoc.
Qed.


(** X4. Exporting a detailed-segment collection that was built from a
    list of records fails on no lookup (no [KeyError]), and the writes
    it performs are, record after record in the order of the list, the
    read segment table and then the write segment table of the record,
    in files named [DXTPOSIX], prefix, id, rank and hostname. *)
Theorem DXT_POSIX_coll_export_read_then_write (posix_records : list dxt_record)
    (c : DXT_POSIX_coll.t) (directory prefix : string) :
  DXT_POSIX_coll.init posix_records = Ok c →
  (∀ e, (DXT_POSIX_coll.export_parquet c directory prefix).1 = Raise e →
        is_lookup_error e = false)
  ∧ (DXT_POSIX_coll.export_parquet c directory prefix).2
    = flat_map (λ r,
        let stem := "DXTPOSIX_" +:+ prefix +:+ "_" +:+ str_int (dxt_id r) +:+ "_"
                    +:+ str_int (dxt_rank r) +:+ "_" +:+ dxt_hostname r in
        [ ToParquet (path_join directory (stem +:+ "_read_segments.parquet"))
                    (dxt_read_segments r);
          ToParquet (path_join directory (stem +:+ "_write_segments.parquet"))
                    (dxt_write_segments r) ]) posix_records.
Proof.
  intros Hc. rewrite (dxt_export_run posix_records c directory prefix Hc). cbn [fst snd].
  split; [discriminate | reflexivity].
Qed.

Lemma DXT_POSIX_coll_export_read_then_write_witness :
  ∃ c, DXT_POSIX_coll.init dxt_records_distinct = Ok c
       ∧ (DXT_POSIX_coll.export_parquet c "out" "1_42").2
         = [ ToParquet "out/DXTPOSIX_1_42_11_0_n01_read_segments.parquet" (df_small 2);
             ToParquet "out/DXTPOSIX_1_42_11_0_n01_write_segments.parquet" (df_small 1);
             ToParquet "out/DXTPOSIX_1_42_12_1_n02_read_segments.parquet" (df_small 4);
             ToParquet "out/DXTPOSIX_1_42_12_1_n02_write_segments.parquet" (df_small 3) ].
Proof.
  eexists. split; [reflexivity|].
  exact (proj2 (DXT_POSIX_coll_export_read_then_write dxt_records_distinct _ "out" "1_42"
                  eq_refl)).
Defined.

(** ** What a collection holds *)

Lemma counters_fold_dom (records : list counters_record) (self : counters_coll.t) :
  dom (counters_coll.counters (foldl counters_coll.init_step self records))
  = dom (counters_coll.counters self)
    ∪ list_to_set ((λ r, (cr_rank r, cr_id r)) <$> records).
Proof.
  revert self. induction records as [|r records IH]; intros self; cbn [foldl].
  - rewrite fmap_nil. cbn [list_to_set]. set_solver.
  - rewrite IH, fmap_cons. cbn [list_to_set counters_coll.init_step counters_coll.counters].
    rewrite dom_insert_L. set_solver.
Qed.

Lemma fcounters_fold_dom (records : list fcounters_record) (self : fcounters_coll.t) :
  dom (fcounters_coll.counters (foldl fcounters_coll.init_step self records))
  = dom (fcounters_coll.counters self)
    ∪ list_to_set ((λ r, (fr_rank r, fr_id r)) <$> records)
  ∧ dom (fcounters_coll.fcounters (foldl fcounters_coll.init_step self records))
    = dom (fcounters_coll.fcounters self)
      ∪ list_to_set ((λ r, (fr_rank r, fr_id r)) <$> records).
Proof.
  revert self. induction records as [|r records IH]; intros self; cbn [foldl].
  - rewrite fmap_nil. cbn [list_to_set]. set_solver.
  - destruct (IH (fcounters_coll.init_step self r)) as [-> ->]. rewrite fmap_cons.
    cbn [list_to_set fcounters_coll.init_step fcounters_coll.counters
         fcounters_coll.fcounters].
    rewrite !dom_insert_L. set_solver.
Qed.

(** X5. In each kind of collection, the identities listed in [metadata]
    are those of the records, in the order of the list (repeated when
    the list repeats one), and the keys of every table dictionary are
    exactly the identities listed in [metadata]; in a detailed-segment
    collection no identity is listed twice. *)
Theorem collections_keys_are_metadata :
  (∀ records : list counters_record,
     let c := counters_coll.init records in
     counters_coll.metadata c = (λ r, (cr_rank r, cr_id r)) <$> records
     ∧ dom (counters_coll.counters c) = list_to_set (counters_coll.metadata c))
  ∧ (∀ records : list fcounters_record,
       let c := fcounters_coll.init records in
       fcounters_coll.metadata c = (λ r, (fr_rank r, fr_id r)) <$> records
       ∧ dom (fcounters_coll.counters c) = list_to_set (fcounters_coll.metadata c)
       ∧ dom (fcounters_coll.fcounters c) = list_to_set (fcounters_coll.metadata c))
  ∧ (∀ (posix_records : list dxt_record) (c : DXT_POSIX_coll.t),
       DXT_POSIX_coll.init posix_records = Ok c →
       DXT_POSIX_metadata.id <$> DXT_POSIX_coll.metadata c = dxt_id <$> posix_records
       ∧ NoDup (DXT_POSIX_metadata.id <$> DXT_POSIX_coll.metadata c)
       ∧ dom (DXT_POSIX_coll.read_segments c)
         = list_to_set (DXT_POSIX_metadata.id <$> DXT_POSIX_coll.metadata c)
       ∧ dom (DXT_POSIX_coll.write_segments c)
         = list_to_set (DXT_POSIX_metadata.id <$> DXT_POSIX_coll.metadata c)).
Proof.
  split; [|split].
  - intros records c. unfold c, counters_coll.init.
    rewrite counters_fold_metadata, counters_fold_dom. cbn [app counters_coll.metadata
      counters_coll.counters]. rewrite dom_empty_L. split; [done | set_solver].
  - intros records c. unfold c, fcounters_coll.init.
    rewrite fcounters_fold_metadata.
    match goal with
    | |- context [foldl _ ?s records] => destruct (fcounters_fold_dom records s) as [-> ->]
    end.
    cbn [app fcounters_coll.metadata fcounters_coll.counters fcounters_coll.fcounters].
    rewrite dom_empty_L. split; [done|]. split; set_solver.
  - intros posix_records c Hc. pose proof (DXT_POSIX_coll_init_NoDup _ _ Hc) as Hnd.
    unfold DXT_POSIX_coll.init in Hc.
    destruct (dxt_fold_distinct posix_records
                {| DXT_POSIX_coll.metadata := [];
                   DXT_POSIX_coll.read_segments := ∅;
                   DXT_POSIX_coll.write_segments := ∅ |} Hnd)
      as (c' & Hc' & Hmd & Hin & Hout).
    { intros r _. apply lookup_empty. }
    rewrite Hc in Hc'. injection Hc' as <-.
    assert (DXT_POSIX_metadata.id <$> DXT_POSIX_coll.metadata c = dxt_id <$> posix_records)
      as Hids.
    { rewrite Hmd. cbn [app DXT_POSIX_coll.metadata]. rewrite <- list_fmap_compose.
      by apply list_fmap_ext. }
    rewrite Hids. split; [done|]. split; [done|].
    cbn [DXT_POSIX_coll.read_segments DXT_POSIX_coll.write_segments] in Hout.
    split; apply set_eq; intros k; rewrite elem_of_dom, elem_of_list_to_set.
    + split.
      * intros Hsome. destruct (decide (k ∈ dxt_id <$> posix_records)) as [|Hk]; [done|].
        destruct (Hout k Hk) as [Hread _]. rewrite Hread, lookup_empty in Hsome.
        by destruct Hsome.
      * intros (r & -> & Hr)%list_elem_of_fmap. destruct (Hin r Hr) as [-> _]. eauto.
    + split.
      * intros Hsome. destruct (decide (k ∈ dxt_id <$> posix_records)) as [|Hk]; [done|].
        destruct (Hout k Hk) as [_ Hwrite]. rewrite Hwrite, lookup_empty in Hsome.
        by destruct Hsome.
      * intros (r & -> & Hr)%list_elem_of_fmap. destruct (Hin r Hr) as [_ ->]. eauto.
Qed.

Lemma collections_keys_are_metadata_witness :
  ∃ c, DXT_POSIX_coll.init dxt_records_distinct = Ok c
       ∧ DXT_POSIX_metadata.id <$> DXT_POSIX_coll.metadata c = [11; 12]
       ∧ dom (DXT_POSIX_coll.read_segments c) = list_to_set [11; 12].
Proof.
  eexists. split; [reflexivity|].
  destruct (proj2 (proj2 collections_keys_are_metadata) dxt_records_distinct _ eq_refl)
    as (Hids & _ & Hdom & _).
  split; [exact Hids|]. rewrite Hdom, Hids. reflexivity.
Defined.

(** ** No file is written twice *)

Lemma path_join_inj (directory b1 b2 : string) :
  str_take 1 b1 = str_take 1 b2 →
  path_join directory b1 = path_join directory b2 → b1 = b2.
Proof.
  intros Hfirst. unfold path_join, startswith. cbn [String.length].
  rewrite Hfirst. case_bool_decide; [done|].
  destruct (bool_decide (directory = "") || endswith directory "/").
  - apply str_append_inj_l.
  - intros Heq%str_append_inj_l. by apply (str_append_inj_l "/").
Qed.

Lemma str_take_1_app (m x y : string) :
  str_take 1 (m +:+ "_" +:+ x) = str_take 1 (m +:+ "_" +:+ y).
Proof. by destruct m. Qed.

(** Two file names of one module and one prefix that agree up to the
    kind of table are names of the same identity. *)
Lemma counters_file_name_inj (directory module_name prefix kind1 kind2 : string)
    (rank1 id1 rank2 id2 : Z) :
  path_join directory (module_name +:+ "_" +:+ prefix +:+ "_" +:+ str_int rank1 +:+ "_"
                       +:+ str_int id1 +:+ "_" +:+ kind1)
  = path_join directory (module_name +:+ "_" +:+ prefix +:+ "_" +:+ str_int rank2 +:+ "_"
                         +:+ str_int id2 +:+ "_" +:+ kind2) →
  rank1 = rank2 ∧ id1 = id2 ∧ kind1 = kind2.
Proof.
  intros Heq%path_join_inj; [|apply str_take_1_app].
  do 4 apply str_append_inj_l in Heq.
  apply split_at_underscore in Heq as [Hrank Heq]; try apply str_int_no_underscore.
  apply split_at_underscore in Heq as [Hid Hkind]; try apply str_int_no_underscore.
  split; [by eapply (inj (pretty : Z → string))|].
  split; [by eapply (inj (pretty : Z → string)) | done].
Qed.

(** X6. When the records of a list have distinct (rank, id) identities,
    the export of the counters-only collection built from them writes
    no path twice, and neither does the export of the
    counters+float-counters collection: no file of an export overwrites
    another file of the same export. *)
Theorem export_parquet_paths_distinct (module_name directory prefix : string) :
  (∀ records : list counters_record,
     NoDup ((λ r, (cr_rank r, cr_id r)) <$> records) →
     NoDup (event_path <$>
              (counters_coll.export_parquet (counters_coll.init records)
                 module_name directory prefix).2))
  ∧ (∀ records : list fcounters_record,
       NoDup ((λ r, (fr_rank r, fr_id r)) <$> records) →
       NoDup (event_path <$>
                (fcounters_coll.export_parquet (fcounters_coll.init records)
                   module_name directory prefix).2)).
Proof.
  set (path kind (k : Z * Z) :=
         path_join directory
           (module_name +:+ "_" +:+ prefix +:+ "_" +:+ str_int k.1 +:+ "_"
            +:+ str_int k.2 +:+ "_" +:+ kind)).
  assert (∀ kind1 kind2 k1 k2, path kind1 k1 = path kind2 k2 → k1 = k2 ∧ kind1 = kind2)
    as Hinj.
  { intros kind1 kind2 [rank1 id1] [rank2 id2] Heq.
    unfold path in Heq. cbn [fst snd] in Heq.
    apply counters_file_name_inj in Heq as (-> & -> & ->). done. }
  split.
  - intros records Hnd. rewrite counters_export_run. cbn [snd].
    rewrite <- list_fmap_compose.
    change (NoDup ((path "counters.parquet" ∘ (λ r, (cr_rank r, cr_id r))) <$> records)).
    rewrite list_fmap_compose. apply NoDup_fmap_2_strong; [|done].
    intros k1 k2 _ _ Heq. by apply Hinj in Heq as [-> _].
  - intros records Hnd. rewrite fcounters_export_run. cbn [snd].
    rewrite fmap_app, <- !list_fmap_compose.
    change (NoDup (((path "counters.parquet" ∘ (λ r, (fr_rank r, fr_id r))) <$> records)
                   ++ ((path "fcounters.parquet" ∘ (λ r, (fr_rank r, fr_id r))) <$> records))).
    rewrite !list_fmap_compose. apply NoDup_app. split; [|split].
    + apply NoDup_fmap_2_strong; [|done].
      intros k1 k2 _ _ Heq. by apply Hinj in Heq as [-> _].
    + intros p (k1 & -> & _)%list_elem_of_fmap (k2 & Heq & _)%list_elem_of_fmap.
      apply Hinj in Heq as [_ Hkind]. discriminate Hkind.
    + apply NoDup_fmap_2_strong; [|done].
      intros k1 k2 _ _ Heq. by apply Hinj in Heq as [-> _].
Qed.

Lemma export_parquet_paths_distinct_witness :
  NoDup (event_path <$>
           (fcounters_coll.export_parquet
              (fcounters_coll.init (drop 1 posix_records_colliding)) "POSIX" "out" "1_42").2).
Proof.
  apply (proj2 (export_parquet_paths_distinct "POSIX" "out" "1_42")).
  apply (bool_decide_unpack _). vm_compute. exact I.
Defined.

Lemma dxt_file_name_inj (directory prefix rest1 rest2 : string) (id1 id2 : Z) :
  path_join directory ("DXTPOSIX_" +:+ prefix +:+ "_" +:+ str_int id1 +:+ "_" +:+ rest1)
  = path_join directory ("DXTPOSIX_" +:+ prefix +:+ "_" +:+ str_int id2 +:+ "_" +:+ rest2) →
  id1 = id2 ∧ rest1 = rest2.
Proof.
  intros Heq%path_join_inj; [|reflexivity].
  do 3 apply str_append_inj_l in Heq.
  apply split_at_underscore in Heq as [Hid Hrest]; try apply str_int_no_underscore.
  split; [by eapply (inj (pretty : Z → string)) | done].
Qed.

(** X7. The export of a detailed-segment collection that was built from
    a list of records writes no path twice: the [id]s are distinct, so
    the files of two records differ, and the read and the write file of
    one record differ. *)
Theorem DXT_POSIX_coll_export_paths_distinct (posix_records : list dxt_record)
    (c : DXT_POSIX_coll.t) (directory prefix : string) :
  DXT_POSIX_coll.init posix_records = Ok c →
  NoDup (event_path <$> (DXT_POSIX_coll.export_parquet c directory prefix).2).
Proof.
  intros Hc. pose proof (DXT_POSIX_coll_init_NoDup _ _ Hc) as Hnd.
  rewrite (dxt_export_run posix_records c directory prefix Hc). cbn [snd].
  clear Hc c. induction posix_records as [|r records IH]; [constructor|].
  rewrite fmap_cons in Hnd. apply NoDup_cons in Hnd as [Hr Hnd].
  cbn [flat_map]. rewrite fmap_app.
  assert (∀ kind p, p ∈ event_path <$> flat_map (λ r,
            let stem := "DXTPOSIX_" +:+ prefix +:+ "_" +:+ str_int (dxt_id r) +:+ "_"
                        +:+ str_int (dxt_rank r) +:+ "_" +:+ dxt_hostname r in
            [ ToParquet (path_join directory (stem +:+ "_read_segments.parquet"))
                        (dxt_read_segments r);
              ToParquet (path_join directory (stem +:+ "_write_segments.parquet"))
                        (dxt_write_segments r) ]) records →
          p ≠ path_join directory
                (("DXTPOSIX_" +:+ prefix +:+ "_" +:+ str_int (dxt_id r) +:+ "_"
                  +:+ str_int (dxt_rank r) +:+ "_" +:+ dxt_hostname r) +:+ kind)) as Hother.
  { intros kind p (e & -> & He)%list_elem_of_fmap Heq.
    apply list_elem_of_In, in_flat_map in He as (r' & Hr' & He).
    apply Hr. apply list_elem_of_fmap. exists r'. split; [|by apply list_elem_of_In].
    cbn [In] in He. destruct He as [<-|[<-|[]]]; cbn [event_path] in Heq;
      rewrite !str_append_assoc in Heq;
      by apply dxt_file_name_inj in Heq as [-> _]. }
  apply NoDup_app. split; [|split; [|exact (IH Hnd)]].
  - cbn [fmap list_fmap event_path]. apply NoDup_cons. split; [|apply NoDup_singleton].
    intros Heq%list_elem_of_singleton. rewrite !str_append_assoc in Heq.
    apply dxt_file_name_inj in Heq as [_ Heq].
    do 3 apply str_append_inj_l in Heq. discriminate Heq.
  - intros p Hp Hin. cbn [fmap list_fmap event_path] in Hp.
    apply elem_of_cons in Hp as [->|Hp].
    + by apply (Hother "_read_segments.parquet") in Hin.
    + apply list_elem_of_singleton in Hp as ->.
      by apply (Hother "_write_segments.parquet") in Hin.
Qed.

Lemma DXT_POSIX_coll_export_paths_distinct_witness :
  ∃ c, DXT_POSIX_coll.init dxt_records_distinct = Ok c
       ∧ NoDup (event_path <$> (DXT_POSIX_coll.export_parquet c "out" "1_42").2).
Proof.
  eexists. split; [reflexivity|].
  exact (DXT_POSIX_coll_export_paths_distinct dxt_records_distinct _ "out" "1_42" eq_refl).
Defined.

(** ** Reading a log *)

Lemma read_log_path_errors_aux (w : world) (filename : string) :
  (os_path_kind w filename = None →
   read_log w filename
   = Raise (ValueError ("Provided path " +:+ filename +:+ " does not exist.")))
  ∧ (∀ kind, os_path_kind w filename = Some kind → kind ≠ RegularFile →
       read_log w filename
       = Raise (ValueError ("Provided path " +:+ filename +:+ " is not a valid file.")))
  ∧ (∀ e, os_path_kind w filename = Some RegularFile →
       darshan_DarshanReport w filename = Raise e →
       read_log w filename = Raise e).
Proof.
  split; [|split].
  - intros Hkind. unfold read_log. by rewrite (os_path_exists_None _ _ Hkind).
  - intros kind Hkind Hne. unfold read_log.
    rewrite (os_path_exists_Some _ _ _ Hkind), (os_path_isfile_Some _ _ _ Hkind).
    by rewrite bool_decide_eq_false_2.
  - intros e Hkind Hopen. unfold read_log.
    rewrite (os_path_exists_Some _ _ _ Hkind), (os_path_isfile_Some _ _ _ Hkind), Hopen.
    by rewrite bool_decide_eq_true_2.
Qed.


(** X8. [read_log] on a path that does not exist, or that exists and is
    not a regular file, raises the [ValueError] of that case, whatever
    the trace library would make of the path; on a regular file that the
    trace library refuses to open, the library's error comes out
    unchanged. *)
Theorem read_log_path_errors (w : world) (filename : string) :
  (os_path_kind w filename = None →
   read_log w filename
   = Raise (ValueError ("Provided path " +:+ filename +:+ " does not exist.")))
  ∧ (∀ kind, os_path_kind w filename = Some kind → kind ≠ RegularFile →
       read_log w filename
       = Raise (ValueError ("Provided path " +:+ filename +:+ " is not a valid file.")))
  ∧ (∀ e, os_path_kind w filename = Some RegularFile →
       darshan_DarshanReport w filename = Raise e →
       read_log w filename = Raise e).
Proof. apply read_log_path_errors_aux. Qed.

Lemma read_log_path_errors_witness :
  read_log world_outputs "fresh" = Raise (ValueError "Provided path fresh does not exist.")
  ∧ read_log world_outputs "archive"
    = Raise (ValueError "Provided path archive is not a valid file.")
  ∧ read_log world_outputs "out.txt" = Raise (ValueError "out.txt").
Proof.
  split; [|split].
  - apply (proj1 (read_log_path_errors world_outputs "fresh")). reflexivity.
  - apply (proj1 (proj2 (read_log_path_errors world_outputs "archive")) Directory);
      [reflexivity | discriminate].
  - apply (proj2 (proj2 (read_log_path_errors world_outputs "out.txt"))); reflexivity.
Defined.

(** X9. What a returned read implies.  When [read_log] returns a
    dictionary, the path is a regular file, the trace library opened
    it, and, if the log has the DXT_POSIX module, its detailed-segment
    records have distinct [id]s.  So a log whose DXT_POSIX records share
    an [id] is never returned as a dictionary, whatever its other
    modules hold. *)
Theorem read_log_returns_only_if (w : world) (filename : string) :
  (∀ output, read_log w filename = Ok output →
     os_path_kind w filename = Some RegularFile
     ∧ ∃ report, darshan_DarshanReport w filename = Ok report
                 ∧ ("DXT_POSIX" ∈ rp_modules report →
                    NoDup (dxt_id <$> rp_records_DXT_POSIX report)))
  ∧ (∀ report, darshan_DarshanReport w filename = Ok report →
       "DXT_POSIX" ∈ rp_modules report →
       ¬ NoDup (dxt_id <$> rp_records_DXT_POSIX report) →
       ∀ output, read_log w filename ≠ Ok output).
Proof.
  assert (∀ output, read_log w filename = Ok output →
            os_path_kind w filename = Some RegularFile
            ∧ ∃ report, darshan_DarshanReport w filename = Ok report
                        ∧ ("DXT_POSIX" ∈ rp_modules report →
                           NoDup (dxt_id <$> rp_records_DXT_POSIX report))) as Honly.
  { intros output Hrun.
    destruct (os_path_kind w filename) as [kind|] eqn:Hkind.
    2:{ rewrite (proj1 (read_log_path_errors_aux w filename) Hkind) in Hrun.
        discriminate. }
    destruct (decide (kind = RegularFile)) as [->|Hne].
    2:{ rewrite (proj1 (proj2 (read_log_path_errors_aux w filename)) kind Hkind Hne) in Hrun.
        discriminate. }
    split; [done|].
    destruct (darshan_DarshanReport w filename) as [report|e] eqn:Hopen.
    2:{ rewrite (proj2 (proj2 (read_log_path_errors_aux w filename)) e Hkind Hopen) in Hrun.
        discriminate. }
    exists report. split; [done|]. intros Hin.
    destruct (decide (NoDup (dxt_id <$> rp_records_DXT_POSIX report))) as [|Hnd]; [done|].
    exfalso. revert Hrun. unfold read_log.
    rewrite (os_path_exists_Some _ _ _ Hkind), (os_path_isfile_Some _ _ _ Hkind), Hopen.
    rewrite bool_decide_eq_true_2 by done. cbn [negb mbind result_bind].
    rewrite (bool_decide_eq_true_2 ("DXT_POSIX" ∈ rp_modules report)) by done.
    unfold DXT_POSIX_coll.init. rewrite dxt_fold_collision by (by left).
    destruct (bool_decide ("POSIX" ∈ rp_modules report));
      destruct (bool_decide ("LUSTRE" ∈ rp_modules report));
      destruct (bool_decide ("STDIO" ∈ rp_modules report)); discriminate. }
  split; [exact Honly|].
  intros report Hopen Hin Hnd output Hrun.
  destruct (Honly output Hrun) as (_ & report' & Hopen' & Hdxt).
  rewrite Hopen in Hopen'. injection Hopen' as <-. by apply Hnd, Hdxt.
Qed.

Lemma read_log_returns_only_if_witness :
  (∃ output, read_log world_same_name "logs/a.darshan" = Ok output
             ∧ os_path_kind world_same_name "logs/a.darshan" = Some RegularFile
             ∧ NoDup (dxt_id <$> rp_records_DXT_POSIX report_a))
  ∧ ∀ output, read_log world_dxt_collision "logs/a.darshan" ≠ Ok output.
Proof.
  split.
  - eexists. split; [reflexivity|].
    destruct (proj1 (read_log_returns_only_if world_same_name "logs/a.darshan") _ eq_refl)
      as (Hkind & report & Hopen & Hdxt).
    split; [exact Hkind|].
    injection Hopen as <-. apply Hdxt.
    apply (bool_decide_unpack _). vm_compute. exact I.
  - apply (proj2 (read_log_returns_only_if world_dxt_collision "logs/a.darshan")
             report_dxt_collision); [reflexivity | | ].
    + apply (bool_decide_unpack _). vm_compute. exact I.
    + apply (bool_decide_unpack _). vm_compute. exact I.
Defined.

Lemma read_log_result_keys_aux (w : world) (filename : string) (output : gmap string pyobj) :
  read_log w filename = Ok output →
  ∃ report,
    darshan_DarshanReport w filename = Ok report
    ∧ output !! "metadata" = Some (OMetadata (rp_metadata report))
    ∧ output !! "modules" = Some (OStrList (rp_modules report))
    ∧ output !! "report" = Some (OReport report)
    ∧ output !! "loaded_modules"
      = Some (OStrList
                ((if bool_decide ("POSIX" ∈ rp_modules report) then ["POSIX_coll"] else [])
                 ++ (if bool_decide ("LUSTRE" ∈ rp_modules report) then ["LUSTRE_coll"] else [])
                 ++ (if bool_decide ("STDIO" ∈ rp_modules report) then ["STDIO_coll"] else [])
                 ++ (if bool_decide ("DXT_POSIX" ∈ rp_modules report)
                     then ["DXT_POSIX_coll_object"] else []))).
Proof.
  unfold read_log.
  destruct (os_path_exists w filename); [|discriminate].
  destruct (os_path_isfile w filename); [|discriminate].
  cbn [negb]. destruct (darshan_DarshanReport w filename) as [report|e]; [|discriminate].
  cbn [mbind result_bind].
  destruct (bool_decide ("POSIX" ∈ rp_modules report)) eqn:HP;
    destruct (bool_decide ("LUSTRE" ∈ rp_modules report)) eqn:HL;
    destruct (bool_decide ("STDIO" ∈ rp_modules report)) eqn:HS;
    destruct (bool_decide ("DXT_POSIX" ∈ rp_modules report)) eqn:HD;
    cbn [mbind result_bind mret result_ret app];
    try (destruct (DXT_POSIX_coll.init (rp_records_DXT_POSIX report)) as [c|e] eqn:Hdxt;
         [|discriminate]);
    cbn [mbind result_bind mret result_ret app];
    intros [= <-]; exists report; rewrite HP, HL, HS, HD;
    (split; [done|]); (split; [by simplify_map_eq|]); (split; [by simplify_map_eq|]);
    (split; [by simplify_map_eq|]); rewrite lookup_insert_eq; reflexivity.
Qed.


(** X10. A dictionary returned by [read_log] holds, under [metadata],
    [modules] and [report], the metadata of the opened report, the names
    of all the modules found in the log (known or not) and the report;
    and its [loaded_modules] lists, in this fixed order and whatever the
    order of the modules in the log, [POSIX_coll], [LUSTRE_coll],
    [STDIO_coll] and [DXT_POSIX_coll_object], each exactly when the
    module POSIX, LUSTRE, STDIO or DXT_POSIX is among those found. *)
Theorem read_log_result_keys (w : world) (filename : string) (output : gmap string pyobj) :
  read_log w filename = Ok output →
  ∃ report,
    darshan_DarshanReport w filename = Ok report
    ∧ output !! "metadata" = Some (OMetadata (rp_metadata report))
    ∧ output !! "modules" = Some (OStrList (rp_modules report))
    ∧ output !! "report" = Some (OReport report)
    ∧ output !! "loaded_modules"
      = Some (OStrList
                ((if bool_decide ("POSIX" ∈ rp_modules report) then ["POSIX_coll"] else [])
                 ++ (if bool_decide ("LUSTRE" ∈ rp_modules report) then ["LUSTRE_coll"] else [])
                 ++ (if bool_decide ("STDIO" ∈ rp_modules report) then ["STDIO_coll"] else [])
                 ++ (if bool_decide ("DXT_POSIX" ∈ rp_modules report)
                     then ["DXT_POSIX_coll_object"] else []))).
Proof. apply read_log_result_keys_aux. Qed.

Lemma read_log_result_keys_witness :
  ∃ output,
    read_log world_same_name "logs/b.darshan" = Ok output
    ∧ output !! "modules" = Some (OStrList ["LUSTRE"; "MPI-IO"])
    ∧ output !! "loaded_modules" = Some (OStrList ["LUSTRE_coll"]).
Proof.
  assert (∃ output, read_log world_same_name "logs/b.darshan" = Ok output)
    as [output Hrun] by (eexists; reflexivity).
  exists output. split; [exact Hrun|].
  destruct (read_log_result_keys world_same_name "logs/b.darshan" output Hrun)
    as (report & Hopen & _ & Hmods & _ & Hloaded).
  injection Hopen as <-. split; [exact Hmods | exact Hloaded].
Defined.

(** X11. In a dictionary returned by [read_log], each of the keys
    [POSIX_coll], [LUSTRE_coll], [STDIO_coll] and [DXT_POSIX_coll_object]
    is present exactly when its module is among those found in the log,
    and then holds the collection built from the records of that module
    (for DXT_POSIX, the collection its constructor returned); nothing is
    stored for HEATMAP, MPI-IO or DXT_MPIIO. *)
Theorem read_log_result_collections (w : world) (filename : string)
    (output : gmap string pyobj) :
  read_log w filename = Ok output →
  ∃ report,
    darshan_DarshanReport w filename = Ok report
    ∧ output !! "POSIX_coll"
      = (if bool_decide ("POSIX" ∈ rp_modules report)
         then Some (OPOSIX_coll (POSIX_coll.init (rp_records_POSIX report))) else None)
    ∧ output !! "LUSTRE_coll"
      = (if bool_decide ("LUSTRE" ∈ rp_modules report)
         then Some (OLUSTRE_coll (LUSTRE_coll.init (rp_records_LUSTRE report))) else None)
    ∧ output !! "STDIO_coll"
      = (if bool_decide ("STDIO" ∈ rp_modules report)
         then Some (OSTDIO_coll (STDIO_coll.init (rp_records_STDIO report))) else None)
    ∧ (if bool_decide ("DXT_POSIX" ∈ rp_modules report)
       then ∃ c, DXT_POSIX_coll.init (rp_records_DXT_POSIX report) = Ok c
                 ∧ output !! "DXT_POSIX_coll_object" = Some (ODXT_POSIX_coll c)
       else output !! "DXT_POSIX_coll_object" = None)
    ∧ output !! "HEATMAP" = None
    ∧ output !! "MPI-IO" = None
    ∧ output !! "DXT_MPIIO" = None.
Proof.
  unfold read_log.
  destruct (os_path_exists w filename); [|discriminate].
  destruct (os_path_isfile w filename); [|discriminate].
  cbn [negb]. destruct (darshan_DarshanReport w filename) as [report|e]; [|discriminate].
  cbn [mbind result_bind].
  destruct (bool_decide ("POSIX" ∈ rp_modules report)) eqn:HP;
    destruct (bool_decide ("LUSTRE" ∈ rp_modules report)) eqn:HL;
    destruct (bool_decide ("STDIO" ∈ rp_modules report)) eqn:HS;
    destruct (bool_decide ("DXT_POSIX" ∈ rp_modules report)) eqn:HD;
    cbn [mbind result_bind mret result_ret app];
    try (destruct (DXT_POSIX_coll.init (rp_records_DXT_POSIX report)) as [c|e] eqn:Hdxt;
         [|discriminate]);
    cbn [mbind result_bind mret result_ret app];
    intros [= <-]; exists report; rewrite HP, HL, HS, HD;
    (split; [done|]); (split; [by simplify_map_eq|]); (split; [by simplify_map_eq|]);
    (split; [by simplify_map_eq|]);
    (split; [first [ by simplify_map_eq
                   | exists c; split; [done | by simplify_map_eq] ]|]);
    (split; [by simplify_map_eq|]); (split; [by simplify_map_eq|]); by simplify_map_eq.
Qed.

Lemma read_log_result_collections_witness :
  ∃ output,
    read_log world_same_name "logs/b.darshan" = Ok output
    ∧ output !! "POSIX_coll" = None
    ∧ output !! "LUSTRE_coll"
      = Some (OLUSTRE_coll (LUSTRE_coll.init [mk_counters_record 0 9 (df_small 5)])).
Proof.
  assert (∃ output, read_log world_same_name "logs/b.darshan" = Ok output)
    as [output Hrun] by (eexists; reflexivity).
  exists output. split; [exact Hrun|].
  destruct (read_log_result_collections world_same_name "logs/b.darshan" output Hrun)
    as (report & Hopen & Hposix & Hlustre & _).
  injection Hopen as <-. split; [exact Hposix | exact Hlustre].
Defined.

(** ** Scanning a directory *)



(** ** The metadata table: failures *)

Lemma job_values_fold_missing (report : gmap string pyobj) (m : metadata_t)
    (pre post : list string) (col : string) (acc : list pyval) :
  report !! "metadata" = Some (OMetadata m) →
  (∀ c, c ∈ pre → is_Some (md_job m !! c)) →
  md_job m !! col = None →
  for_fold (λ values val,
              m ← report_metadata report;
              v ← getitem (md_job m) val val;
              mret (values ++ [v])) (pre ++ col :: post) acc = Raise (KeyError col).
Proof.
  intros Hmd Hpre Hcol. rewrite for_fold_app.
  destruct (job_values_fold report m pre acc Hmd Hpre) as (vals & -> & _).
  set (body := λ (values : list pyval) (val : string),
                 m ← report_metadata report;
                 v ← getitem (md_job m) val val;
                 mret (values ++ [v])).
  assert (body (acc ++ vals) col = Raise (KeyError col)) as Hstep.
  { unfold body, report_metadata, getitem. rewrite Hmd.
    cbn [mbind result_bind mret result_ret]. by rewrite Hcol. }
  cbn [mbind result_bind for_fold]. by rewrite Hstep.
Qed.

(** X13. When a job record of the batch has its metadata but the job
    metadata lacks a field of the header, every field before it in the
    header being there, and the job records before it in the batch are
    complete, [move_metadata_into_dataframe] raises the [KeyError] of
    that field and returns no table; a job record without [metadata]
    makes it raise the [KeyError] of [metadata]. *)
Theorem move_metadata_into_dataframe_missing_field
    (l1 l2 : list (string * gmap string pyobj)) (name : string)
    (report : gmap string pyobj) :
  NoDup (od_keys (l1 ++ (name, report) :: l2)) →
  (∀ n r, (n, r) ∈ l1 → has_job_fields r) →
  (∀ m pre col post,
     report !! "metadata" = Some (OMetadata m) →
     mdf_header = pre ++ col :: post → post ≠ [] →
     (∀ c, c ∈ pre → is_Some (md_job m !! c)) →
     md_job m !! col = None →
     move_metadata_into_dataframe (l1 ++ (name, report) :: l2) = Raise (KeyError col))
  ∧ (report !! "metadata" = None →
     move_metadata_into_dataframe (l1 ++ (name, report) :: l2)
     = Raise (KeyError "metadata")).
Proof.
  intros Hnd Hgood. set (report_data := l1 ++ (name, report) :: l2) in *.
  assert (NoDup l1.*1) as Hnd1.
  { unfold od_keys, report_data in Hnd. rewrite fmap_app in Hnd.
    by apply NoDup_app in Hnd as [? _]. }
  destruct (move_metadata_fold report_data l1 {| df_columns := mdf_header; df_rows := [] |}
              Hnd) as (rows & Hrun & _); try done.
  { intros x Hx. unfold report_data. apply elem_of_app. by left. }
  { intros k _ Hin. by apply elem_of_nil in Hin. }
  assert (od_get report_data name = Some report) as Hget.
  { apply od_get_NoDup; [done|]. unfold report_data. apply elem_of_app. right. by left. }
  unfold move_metadata_into_dataframe, od_keys.
  replace (report_data.*1) with (l1.*1 ++ name :: l2.*1)
    by (unfold report_data; by rewrite fmap_app, fmap_cons).
  match goal with |- context [for_fold ?f (_ ++ _)] => set (body := f) end.
  change (for_fold body l1.*1 {| df_columns := mdf_header; df_rows := [] |}
          = Ok {| df_columns := mdf_header; df_rows := [] ++ rows |}) in Hrun.
  rewrite !for_fold_app, Hrun. cbn [mbind result_bind for_fold].
  unfold body. cbn beta. rewrite Hget.
  cbn [from_option mbind result_bind]. split.
  - intros m pre col post Hmd Hheader Hpost Hpre Hcol. unfold job_values.
    assert (take (length mdf_header - 1) mdf_header
            = pre ++ col :: take (length post - 1) post) as ->.
    { rewrite Hheader, length_app. cbn [length].
      rewrite take_app_ge by lia.
      replace (length pre + S (length post) - 1 - length pre)%nat
        with (S (length post - 1)) by (destruct post; [done | simpl; lia]).
      reflexivity. }
    by rewrite (job_values_fold_missing report m pre _ col [] Hmd Hpre Hcol).
  - intros Hmd.
    assert (job_values report = Raise (KeyError "metadata")) as ->; [|done].
    unfold job_values.
    replace (take (length mdf_header - 1) mdf_header)
      with ("run_time" :: drop 1 (take (length mdf_header - 1) mdf_header))
      by reflexivity.
    cbn [for_fold]. unfold report_metadata, getitem. by rewrite Hmd.
Qed.

Lemma move_metadata_into_dataframe_missing_field_witness :
  move_metadata_into_dataframe
    [("1_42", job_record 1 42 4); ("3_44", job_record_no_nprocs); ("2_43", job_record 2 43 8)]
  = Raise (KeyError "nprocs").
Proof.
  apply (proj1 (move_metadata_into_dataframe_missing_field
                  [("1_42", job_record 1 42 4)] [("2_43", job_record 2 43 8)]
                  "3_44" job_record_no_nprocs
                  ltac:(apply (bool_decide_unpack _); vm_compute; exact I)
                  ltac:(intros n r [= -> ->]%list_elem_of_singleton;
                        eexists; split; [reflexivity|]; intros col Hcol Hne;
                        apply list_elem_of_In in Hcol; simpl in Hcol;
                        repeat (destruct Hcol as [<-|Hcol];
                                [try (vm_compute; eauto); congruence|]);
                        destruct Hcol))
           {| md_job := delete "nprocs" (job_fields 3 44 2); md_exe := VStr "./a.out" |}
           ["run_time"; "start_time_nsec"; "start_time_sec"; "end_time_nsec";
            "end_time_sec"; "jobid"; "uid"; "log_ver"; "metadata"]
           "nprocs" ["exe"]).
  - reflexivity.
  - reflexivity.
  - discriminate.
  - intros c Hc. apply list_elem_of_In in Hc. simpl in Hc.
    repeat (destruct Hc as [<-|Hc]; [vm_compute; eauto|]). destruct Hc.
  - reflexivity.
Defined.

Lemma job_values_fold_length (report : gmap string pyobj) (cols : list string)
    (acc vals : list pyval) :
  for_fold (λ values val,
              m ← report_metadata report;
              v ← getitem (md_job m) val val;
              mret (values ++ [v])) cols acc = Ok vals →
  length vals = (length acc + length cols)%nat.
Proof.
  set (body := λ (values : list pyval) (val : string),
                 m ← report_metadata report;
                 v ← getitem (md_job m) val val;
                 mret (values ++ [v])).
  revert acc. induction cols as [|col cols IH]; intros acc; cbn [for_fold].
  - intros [= <-]. simpl. lia.
  - destruct (body acc col) as [acc'|e] eqn:Hstep; cbn [mbind result_bind]; [|discriminate].
    intros Hrun%IH. rewrite Hrun. cbn [length].
    unfold body, report_metadata, getitem in Hstep.
    destruct (report !! "metadata") as [[m| | | | | |]|];
      cbn [mbind result_bind mret result_ret] in Hstep; try discriminate.
    destruct (md_job m !! col) as [v|]; cbn [mbind result_bind mret result_ret] in Hstep;
      [|discriminate].
    injection Hstep as <-. rewrite length_app. simpl. lia.
Qed.

Lemma move_metadata_fold_no_ValueError
    (report_data l : list (string * gmap string pyobj)) (df0 : DataFrame) (e : exn) :
  NoDup l.*1 →
  (∀ k, k ∈ l.*1 → VStr k ∉ (df_rows df0).*1) →
  df_columns df0 = mdf_header →
  for_fold (λ metadata_df report_name,
              report ← from_option Ok (Raise (KeyError report_name))
                                   (od_get report_data report_name);
              values ← job_values report;
              m ← report_metadata report;
              let values := values ++ [md_exe m] in
              if bool_decide (VStr report_name ∈ (df_rows metadata_df).*1)
              then Raise (ValueError ("The name " +:+ report_name +:+
                " is not unique -- attempted to insert a row into the metadata df into a location that already exists!"))
              else df_loc_set metadata_df (VStr report_name) values)
           l.*1 df0 = Raise e →
  is_ValueError e = false.
Proof.
  match goal with |- context [for_fold ?f] => set (body := f) end.
  revert df0. induction l as [|[k report] l IH]; intros df0 Hnd Hfresh Hcols; [discriminate|].
  rewrite fmap_cons in Hnd, Hfresh. apply NoDup_cons in Hnd as [Hk Hnd].
  rewrite fmap_cons. cbn [for_fold fst].
  assert (VStr k ∉ (df_rows df0).*1) as Hk0 by (apply Hfresh; by left).
  assert ((∃ e', body df0 k = Raise e' ∧ is_ValueError e' = false)
          ∨ ∃ values, body df0 k
                      = Ok {| df_columns := df_columns df0;
                              df_rows := df_rows df0 ++ [(VStr k, values)] |}) as Hstep.
  { unfold body. destruct (od_get report_data k) as [r|]; cbn [from_option mbind result_bind];
      [|left; eexists; split; done].
    unfold job_values. destruct (for_fold _ _ _) as [vals|e'] eqn:Hvals;
      cbn [mbind result_bind].
    2:{ left. exists e'. split; [done|]. by apply job_values_fold_error in Hvals. }
    apply job_values_fold_length in Hvals.
    unfold report_metadata, getitem.
    destruct (r !! "metadata") as [[m| | | | | |]|]; cbn [mbind result_bind mret result_ret];
      try (left; eexists; split; done).
    rewrite bool_decide_eq_false_2 by done. unfold df_loc_set.
    rewrite bool_decide_eq_false_2.
    2:{ intros Hlen. apply Hlen. rewrite Hcols, length_app, Hvals. reflexivity. }
    rewrite bool_decide_eq_false_2 by done. right. eauto. }
  destruct Hstep as [(e' & -> & He') | (values & ->)]; cbn [mbind result_bind].
  - by intros [= <-].
  - apply IH; [done | | done]. intros k' Hk'. cbn [df_rows]. rewrite fmap_app.
    intros [Hin|Hin]%elem_of_app.
    + apply (Hfresh k'); [by right | done].
    + apply list_elem_of_singleton in Hin. injection Hin as ->. done.
Qed.

(** X14. On a dictionary of job records, [move_metadata_into_dataframe]
    raises no [ValueError]: the names it goes through are the keys of
    the dictionary, so its duplicate-name check finds no name already in
    the table, and every row it sets is as wide as the header; in
    particular it never raises the error of the duplicate-name check. *)
Theorem move_metadata_into_dataframe_no_ValueError
    (report_data : list (string * gmap string pyobj)) (e : exn) :
  NoDup (od_keys report_data) →
  move_metadata_into_dataframe report_data = Raise e →
  is_ValueError e = false
  ∧ ∀ name, e ≠ duplicate_name_error name.
Proof.
  intros Hnd Hrun.
  assert (is_ValueError e = false) as He.
  { unfold move_metadata_into_dataframe in Hrun.
    apply (move_metadata_fold_no_ValueError report_data report_data
             {| df_columns := mdf_header; df_rows := [] |} e Hnd); [|done..].
    intros k _ Hin. by apply elem_of_nil in Hin. }
  split; [exact He|]. intros name ->. discriminate He.
Qed.

Lemma move_metadata_into_dataframe_no_ValueError_witness :
  is_ValueError (KeyError "nprocs") = false
  ∧ ∀ name, KeyError "nprocs" ≠ duplicate_name_error name.
Proof.
  apply (move_metadata_into_dataframe_no_ValueError
           [("1_42", job_record 1 42 4); ("3_44", job_record_no_nprocs)]).
  - apply (bool_decide_unpack _). vm_compute. exact I.
  - reflexivity.
Defined.

(** ** The archive writer: what it writes and where it stops *)








(** ** The orchestrator *)

Lemma aggregate_darshan_stages (w : world) (directory output_loc : string) :
  aggregate_darshan w directory output_loc
  = files ← lift (collect_logfiles w directory);
    collected_report_data ← lift (collect_reports w directory files []);
    metadata_df ← lift (move_metadata_into_dataframe collected_report_data);
    write_to_parquet w collected_report_data metadata_df output_loc.
Proof. reflexivity. Qed.

Lemma collect_reports_cons (w : world) (directory f : string) (files : list string)
    (d : list (string * gmap string pyobj)) :
  collect_reports w directory (f :: files) d
  = tmp_report_data ← read_log w (path_join directory f);
    tmp_name ← generate_name_for_report tmp_report_data;
    collect_reports w directory files (od_set d tmp_name tmp_report_data).
Proof.
  unfold collect_reports. cbn [for_fold].
  destruct (read_log w (path_join directory f)) as [tmp|e]; [|done].
  cbn [mbind result_bind]. by destruct (generate_name_for_report tmp).
Qed.




Lemma collect_reports_raises (w : world) (directory f : string) (files : list string)
    (d0 : list (string * gmap string pyobj)) :
  f ∈ files →
  (∀ r, read_log w (path_join directory f) = Ok r →
        ∃ e, generate_name_for_report r = Raise e) →
  ∃ e, collect_reports w directory files d0 = Raise e.
Proof.
  revert d0. induction files as [|f' files IH]; intros d0 Hin Hfail.
  - by apply elem_of_nil in Hin.
  - rewrite collect_reports_cons.
    destruct (read_log w (path_join directory f')) as [tmp|e] eqn:Hread;
      cbn [mbind result_bind]; [|eauto].
    destruct (generate_name_for_report tmp) as [name|e] eqn:Hname;
      cbn [mbind result_bind]; [|eauto].
    apply elem_of_cons in Hin as [->|Hin]; [|by apply IH].
    destruct (Hfail tmp Hread) as [e He]. congruence.
Qed.

(** X17. [aggregate_darshan] writes only after everything was read: if
    one of the logs of the directory cannot be read, or has no name, the
    run fails with nothing created or written, the logs before it
    included; and whenever the run did create or write something, the
    scan, the reading of every log and the metadata table all went
    through, and the run is the [write_to_parquet] of their results. *)
Theorem aggregate_darshan_writes_after_reading (w : world) (directory output_loc : string) :
  (∀ files f, collect_logfiles w directory = Ok files → f ∈ files →
     (∀ r, read_log w (path_join directory f) = Ok r →
           ∃ e, generate_name_for_report r = Raise e) →
     ∃ e, aggregate_darshan w directory output_loc = (Raise e, []))
  ∧ ((aggregate_darshan w directory output_loc).2 ≠ [] →
     ∃ files collected_report_data metadata_df,
       collect_logfiles w directory = Ok files
       ∧ collect_reports w directory files [] = Ok collected_report_data
       ∧ move_metadata_into_dataframe collected_report_data = Ok metadata_df
       ∧ aggregate_darshan w directory output_loc
         = write_to_parquet w collected_report_data metadata_df output_loc).
Proof.
  rewrite aggregate_darshan_stages. split.
  - intros files f -> Hin Hfail. rewrite bind_lift_ok.
    destruct (collect_reports_raises w directory f files [] Hin Hfail) as [e ->].
    exists e. reflexivity.
  - destruct (collect_logfiles w directory) as [files|e];
      [|rewrite bind_lift_raise; intros H; by destruct H].
    rewrite bind_lift_ok.
    destruct (collect_reports w directory files []) as [d|e] eqn:Hd;
      [|rewrite bind_lift_raise; intros H; by destruct H].
    rewrite bind_lift_ok.
    destruct (move_metadata_into_dataframe d) as [df|e] eqn:Hdf;
      [|rewrite bind_lift_raise; intros H; by destruct H].
    intros _. exists files, d, df. rewrite !bind_lift_ok. done.
Qed.

Lemma aggregate_darshan_writes_after_reading_witness :
  ∃ e, aggregate_darshan world_broken_log "logs" "out" = (Raise e, []).
Proof.
  apply (proj1 (aggregate_darshan_writes_after_reading world_broken_log "logs" "out")
           ["a.darshan"; "c.darshan"] "c.darshan").
  - reflexivity.
  - right. by left.
  - intros r Hread. discriminate Hread.
Defined.







Lemma od_get_set_eq {V} (d : list (string * V)) (k : string) (v : V) :
  od_get (od_set d k v) k = Some v.
Proof.
  induction d as [|[k' v'] d IH]; cbn [od_set od_get].
  - by rewrite bool_decide_eq_true_2.
  - case_bool_decide as Hk; cbn [od_get].
    + by rewrite bool_decide_eq_true_2.
    + by rewrite bool_decide_eq_false_2.
Qed.

Lemma od_get_set_ne {V} (d : list (string * V)) (k k' : string) (v : V) :
  k ≠ k' → od_get (od_set d k v) k' = od_get d k'.
Proof.
  intros Hne. induction d as [|[k0 v0] d IH]; cbn [od_set od_get].
  - by rewrite bool_decide_eq_false_2.
  - case_bool_decide as Hk; cbn [od_get].
    + subst k0. by rewrite !bool_decide_eq_false_2.
    + case_bool_decide; [done | exact IH].
Qed.

Lemma collect_reports_keeps (w : world) (directory name : string) (files : list string)
    (d batch : list (string * gmap string pyobj)) (r : gmap string pyobj) :
  collect_reports w directory files d = Ok batch →
  od_get d name = Some r →
  (∀ f' r', f' ∈ files → read_log w (path_join directory f') = Ok r' →
            generate_name_for_report r' ≠ Ok name) →
  od_get batch name = Some r.
Proof.
  revert d. induction files as [|f files IH]; intros d.
  - by intros [= <-].
  - rewrite collect_reports_cons.
    destruct (read_log w (path_join directory f)) as [tmp|e] eqn:Hread;
      cbn [mbind result_bind]; [|discriminate].
    destruct (generate_name_for_report tmp) as [k|e] eqn:Hname;
      cbn [mbind result_bind]; [|discriminate].
    intros Hrun Hget Hother. apply (IH _ Hrun).
    + rewrite od_get_set_ne; [done|]. intros ->.
      by apply (Hother f tmp); [left | |].
    + intros f' r' Hf'. apply Hother. by right.
Qed.

(** X19. Of the logs of a run that generate one name, the batch keeps
    the last: when a log is read, gets a name, and no log after it in
    the list gets that name, the batch that [aggregate_darshan] collects
    holds the job record of that log under the name, and holds no other
    job record under it (the records of the earlier logs of that name
    are gone, without an error). *)
Theorem collect_reports_last_log_wins (w : world) (directory f name : string)
    (files1 files2 : list string) (batch : list (string * gmap string pyobj))
    (r : gmap string pyobj) :
  collect_reports w directory (files1 ++ f :: files2) [] = Ok batch →
  read_log w (path_join directory f) = Ok r →
  generate_name_for_report r = Ok name →
  (∀ f' r', f' ∈ files2 → read_log w (path_join directory f') = Ok r' →
            generate_name_for_report r' ≠ Ok name) →
  od_get batch name = Some r
  ∧ ∀ r0, (name, r0) ∈ batch → r0 = r.
Proof.
  intros Hrun Hread Hname Hlater.
  assert (od_get batch name = Some r) as Hget.
  { unfold collect_reports in Hrun. rewrite for_fold_app in Hrun.
    destruct (for_fold _ files1 []) as [d1|e]; cbn [mbind result_bind] in Hrun;
      [|discriminate].
    change (collect_reports w directory (f :: files2) d1 = Ok batch) in Hrun.
    rewrite collect_reports_cons, Hread in Hrun. cbn [mbind result_bind] in Hrun.
    rewrite Hname in Hrun. cbn [mbind result_bind] in Hrun.
    apply (collect_reports_keeps w directory name files2 _ batch r Hrun); [|done].
    apply od_get_set_eq. }
  split; [done|]. intros r0 Hin.
  destruct (collected_report_data_inv w directory (files1 ++ f :: files2) [] batch Hrun)
    as [Hnd _]; [constructor | by intros k r' ?%elem_of_nil |].
  rewrite (od_get_NoDup batch name r0 Hnd Hin) in Hget. by injection Hget.
Qed.

Lemma collect_reports_last_log_wins_witness :
  ∃ batch record_b,
    collect_reports world_same_name "logs" ["a.darshan"; "b.darshan"] [] = Ok batch
    ∧ read_log world_same_name "logs/b.darshan" = Ok record_b
    ∧ od_get batch "1_42" = Some record_b
    ∧ ∀ r0, ("1_42", r0) ∈ batch → r0 = record_b.
Proof.
  do 2 eexists. split; [reflexivity|]. split; [reflexivity|].
  apply (collect_reports_last_log_wins world_same_name "logs" "b.darshan" "1_42"
           ["a.darshan"] []).
  - reflexivity.
  - reflexivity.
  - reflexivity.
  - intros f' r' Hf'. by apply elem_of_nil in Hf'.
Defined.

(** X20. The file-name part of a detailed-segment record determines the
    record's id, rank and hostname: two metadata objects with the same
    [to_filename] have the same three fields. *)
Theorem DXT_POSIX_metadata_to_filename_inj (m1 m2 : DXT_POSIX_metadata.t) :
  DXT_POSIX_metadata.to_filename m1 = DXT_POSIX_metadata.to_filename m2 →
  DXT_POSIX_metadata.id m1 = DXT_POSIX_metadata.id m2
  ∧ DXT_POSIX_metadata.rank m1 = DXT_POSIX_metadata.rank m2
  ∧ DXT_POSIX_metadata.hostname m1 = DXT_POSIX_metadata.hostname m2.
Proof.
  unfold DXT_POSIX_metadata.to_filename. cbn [str_join]. intros Heq.
  apply split_at_underscore in Heq as [Hid Heq]; try apply str_int_no_underscore.
  apply split_at_underscore in Heq as [Hrank Hhost]; try apply str_int_no_underscore.
  split; [by eapply (inj (pretty : Z → string))|].
  split; [by eapply (inj (pretty : Z → string)) | done].
Qed.

Lemma DXT_POSIX_metadata_to_filename_inj_witness :
  DXT_POSIX_metadata.id (DXT_POSIX_metadata.init 7 0 "n_01" 3 5)
  = DXT_POSIX_metadata.id (DXT_POSIX_metadata.init 7 0 "n_01" 9 9)
  ∧ DXT_POSIX_metadata.rank (DXT_POSIX_metadata.init 7 0 "n_01" 3 5)
    = DXT_POSIX_metadata.rank (DXT_POSIX_metadata.init 7 0 "n_01" 9 9)
  ∧ DXT_POSIX_metadata.hostname (DXT_POSIX_metadata.init 7 0 "n_01" 3 5)
    = DXT_POSIX_metadata.hostname (DXT_POSIX_metadata.init 7 0 "n_01" 9 9).
Proof.
  apply (DXT_POSIX_metadata_to_filename_inj
           (DXT_POSIX_metadata.init 7 0 "n_01" 3 5)
           (DXT_POSIX_metadata.init 7 0 "n_01" 9 9)).
  reflexivity.
Defined.
